(** * Automation DateTime variable resource: embedding and properties

    Shallow embedding of
    [azurerm/resource_arm_automation_datetime_variable.go] and of the destroy
    check of [azurerm/resource_arm_automation_int_variable_test.go].

    The file has three layers:
    - [Module time]: the part of Go's [time] package the resource calls
      ([time.Parse] with the RFC 3339 layout, [Time.UnixNano], [Time.Format]);
    - the SDK and helper types the resource handles (responses, records,
      [schema.ResourceData]) and a small state-and-error monad for the
      lifecycle functions;
    - the lifecycle functions themselves, followed by the properties. *)

From Stdlib Require Import ZArith String Ascii List Lia Bool.
From Stdlib Require Import DecimalString DecimalZ DecimalN DecimalPos.
From stdpp Require Import base option gmap strings list.

Local Open Scope string_scope.
Local Open Scope Z_scope.

(** ** Fixed-width integers *)

(** Conversion to [int64] and [uint64]: the value modulo [2^64], read in the
    signed or the unsigned range. *)
Definition int64 (z : Z) : Z := (z + 2 ^ 63) mod 2 ^ 64 - 2 ^ 63.
Definition uint64 (z : Z) : Z := z mod 2 ^ 64.

(** ** Bytes of a string *)

Definition byteVal (c : ascii) : Z := Z.of_N (N_of_ascii c).

Definition isDigitByte (c : ascii) : bool :=
  (48 <=? byteVal c) && (byteVal c <=? 57).

(** [c - '0'] *)
Definition digitVal (c : ascii) : Z := byteVal c - 48.

(** The double quote character, and the backslash. *)
Definition dquote : string := String (ascii_of_nat 34) EmptyString.
Definition backslash : string := String (ascii_of_nat 92) EmptyString.

Fixpoint strDrop (n : nat) (s : string) : string :=
  match n, s with
  | O, _ => s
  | S n, String _ s => strDrop n s
  | S _, EmptyString => EmptyString
  end.

Fixpoint strTake (n : nat) (s : string) : string :=
  match n, s with
  | O, _ => EmptyString
  | S n, String c s => String c (strTake n s)
  | S _, EmptyString => EmptyString
  end.

Definition strLen (s : string) : Z := Z.of_nat (String.length s).

(** Decimal digits of a natural number, most significant first. *)
Definition decimal (u : Z) : string :=
  NilZero.string_of_uint (N.to_uint (Z.to_N u)).

Fixpoint zeros (n : nat) : string :=
  match n with
  | O => EmptyString
  | S n => String "0" (zeros n)
  end.

(** ** Go's [time] package, as far as the resource uses it

    [time.Parse], [Time.UnixNano] and [Time.Format] with the functions of
    the package's [time.go] and [format.go] they rest on, as of the Go
    releases of the time of the resource (Go 1.12). Layouts are driven chunk
    by chunk as in [format.go]; only the chunks of the two layouts the
    resource uses are kept. *)

Module time.

(** A [Time]: seconds and nanoseconds since the Unix epoch, and the offset
    in seconds east of UTC of its location at that instant ([0] for UTC).
    [nsec] is within [0, 999999999]. *)
Record Time := mkTime { sec : Z; nsec : Z; offset : Z }.

Definition secondsPerMinute : Z := 60.
Definition secondsPerHour : Z := 60 * secondsPerMinute.
Definition secondsPerDay : Z := 24 * secondsPerHour.
Definition daysPer400Years : Z := 365 * 400 + 97.
Definition daysPer100Years : Z := 365 * 100 + 24.
Definition daysPer4Years : Z := 365 * 4 + 1.

Definition absoluteZeroYear : Z := -292277022399.
Definition internalYear : Z := 1.
(** [(absoluteZeroYear - internalYear) * 365.2425 * secondsPerDay] *)
Definition absoluteToInternal : Z :=
  (absoluteZeroYear - internalYear) * 3652425 * secondsPerDay ÷ 10000.
Definition internalToAbsolute : Z := - absoluteToInternal.
Definition unixToInternal : Z :=
  (1969 * 365 + 1969 ÷ 4 - 1969 ÷ 100 + 1969 ÷ 400) * secondsPerDay.
Definition internalToUnix : Z := - unixToInternal.

(** [daysBefore[m]]: days in a non-leap year before month [m+1]. *)
Definition daysBefore (m : Z) : Z :=
  match m with
  | 0 => 0
  | 1 => 31
  | 2 => 31 + 28
  | 3 => 31 + 28 + 31
  | 4 => 31 + 28 + 31 + 30
  | 5 => 31 + 28 + 31 + 30 + 31
  | 6 => 31 + 28 + 31 + 30 + 31 + 30
  | 7 => 31 + 28 + 31 + 30 + 31 + 30 + 31
  | 8 => 31 + 28 + 31 + 30 + 31 + 30 + 31 + 31
  | 9 => 31 + 28 + 31 + 30 + 31 + 30 + 31 + 31 + 30
  | 10 => 31 + 28 + 31 + 30 + 31 + 30 + 31 + 31 + 30 + 31
  | 11 => 31 + 28 + 31 + 30 + 31 + 30 + 31 + 31 + 30 + 31 + 30
  | _ => 31 + 28 + 31 + 30 + 31 + 30 + 31 + 31 + 30 + 31 + 30 + 31
  end.

Definition isLeap (year : Z) : bool :=
  (Z.rem year 4 =? 0) && (negb (Z.rem year 100 =? 0) || (Z.rem year 400 =? 0)).

Definition daysIn (m year : Z) : Z :=
  if (m =? 2) && isLeap year then 29 else daysBefore m - daysBefore (m - 1).

(** [norm hi lo base]: the pair with [lo] brought into [0, base). *)
Definition norm (hi lo base : Z) : Z * Z :=
  let '(hi, lo) :=
    if lo <? 0 then
      let n := (- lo - 1) ÷ base + 1 in (hi - n, lo + n * base)
    else (hi, lo) in
  if lo >=? base then
    let n := lo ÷ base in (hi + n, lo - n * base)
  else (hi, lo).

(** [daysSinceEpoch(year)]: the days from the absolute epoch to the start
    of [year]. *)
Definition daysSinceEpoch (year : Z) : Z :=
  let y := uint64 (year - absoluteZeroYear) in
  (* days from 400-year cycles *)
  let n := y / 400 in
  let y := y - 400 * n in
  let d := daysPer400Years * n in
  (* 100-year cycles *)
  let n := y / 100 in
  let y := y - 100 * n in
  let d := d + daysPer100Years * n in
  (* 4-year cycles *)
  let n := y / 4 in
  let y := y - 4 * n in
  let d := d + daysPer4Years * n in
  (* remaining non-leap years *)
  let n := y in
  d + 365 * n.

(** [time.Date(year, month, day, hour, min, sec, nsec, time.UTC)] *)
Definition Date (year month day hour min sec nsec : Z) : Time :=
  let m := month - 1 in
  let '(year, m) := norm year m 12 in
  let month := m + 1 in
  let '(sec, nsec) := norm sec nsec 1000000000 in
  let '(min, sec) := norm min sec 60 in
  let '(hour, min) := norm hour min 60 in
  let '(day, hour) := norm day hour 24 in
  let d := daysSinceEpoch year in
  (* days before this month *)
  let d := d + daysBefore (month - 1) in
  let d := if isLeap year && (month >=? 3) then d + 1 else d in
  (* days before today *)
  let d := uint64 (d + (day - 1)) in
  (* time elapsed today *)
  let abs := uint64 (d * secondsPerDay) in
  let abs := uint64 (abs + (hour * secondsPerHour + min * secondsPerMinute + sec)) in
  let unix := int64 (int64 abs + (absoluteToInternal + internalToUnix)) in
  mkTime unix nsec 0.

(** [t.UnixNano()]: [int64] arithmetic, wrapping outside the years
    1678 to 2262. *)
Definition UnixNano (t : Time) : Z :=
  int64 (int64 (sec t * 1000000000) + nsec t).

(** The instant of [t] in nanoseconds since the epoch, as a number. *)
Definition instant (t : Time) : Z := sec t * 1000000000 + nsec t.

(** [t.abs()]: seconds since the absolute zero year, in [t]'s location. *)
Definition abs (t : Time) : Z :=
  uint64 (sec t + offset t + (unixToInternal + internalToAbsolute)).

(** The first half of [absDate(abs, full)], which is all of it when [full]
    is false: the year and the day of the year, from zero. *)
Definition absYearDay (abs : Z) : Z * Z :=
  let d := abs / secondsPerDay in
  (* 400-year cycles *)
  let n := d / daysPer400Years in
  let y := 400 * n in
  let d := d - daysPer400Years * n in
  (* 100-year cycles; the last has one day more: 4 becomes 3 *)
  let n := d / daysPer100Years in
  let n := n - Z.shiftr n 2 in
  let y := y + 100 * n in
  let d := d - daysPer100Years * n in
  (* 4-year cycles *)
  let n := d / daysPer4Years in
  let y := y + 4 * n in
  let d := d - daysPer4Years * n in
  (* years within the 4-year cycle: 4 becomes 3 *)
  let n := d / 365 in
  let n := n - Z.shiftr n 2 in
  let y := y + n in
  let d := d - 365 * n in
  let year := int64 (int64 y + absoluteZeroYear) in
  (year, d).

(** The second half of [absDate(abs, true)]: month and day of the month
    from the day of the year, in a leap year or not. *)
Definition monthDay (leap : bool) (yday : Z) : Z * Z :=
  let day := yday in
  if leap && (day =? 31 + 29 - 1) then (2, 29)
  else
    let day := if leap && (day >? 31 + 29 - 1) then day - 1 else day in
    (* estimate the month as if every month had 31 days, then adjust *)
    let month := day ÷ 31 in
    let end_ := daysBefore (month + 1) in
    let '(month, begin) :=
      if day >=? end_ then (month + 1, end_) else (month, daysBefore month) in
    (month + 1, day - begin + 1).

(** [absDate(abs, true)]: year, month and day of the month. *)
Definition absDate (abs : Z) : Z * Z * Z :=
  let '(year, yday) := absYearDay abs in
  let '(month, day) := monthDay (isLeap year) yday in
  (year, month, day).

(** [absClock(abs)]: hour, minute and second within the day. *)
Definition absClock (abs : Z) : Z * Z * Z :=
  let sec := abs mod secondsPerDay in
  let hour := sec / secondsPerHour in
  let sec := sec - hour * secondsPerHour in
  let min := sec / secondsPerMinute in
  let sec := sec - min * secondsPerMinute in
  (hour, min, sec).

(** *** Layouts

    A layout string is read by [nextStdChunk] as a sequence of literal
    prefixes and standard chunks; a layout is kept here as that sequence. *)
Inductive chunk :=
  | lit (s : string)
  | stdLongYear                 (* "2006" *)
  | stdZeroMonth                (* "01" *)
  | stdZeroDay                  (* "02" *)
  | stdHour                     (* "15" *)
  | stdZeroMinute               (* "04" *)
  | stdZeroSecond               (* "05" *)
  | stdFracSecond0 (n : nat)    (* ".000", n digits *)
  | stdFracSecond9 (n : nat)    (* ".999", n digits, trailing zeros removed *)
  | stdISO8601ColonTZ.          (* "Z07:00" *)

(** [time.RFC3339 = "2006-01-02T15:04:05Z07:00"] *)
Definition RFC3339 : list chunk :=
  [stdLongYear; lit "-"; stdZeroMonth; lit "-"; stdZeroDay; lit "T";
   stdHour; lit ":"; stdZeroMinute; lit ":"; stdZeroSecond; stdISO8601ColonTZ].

(** ["2006-01-02T15:04:05.999Z"]: the final [Z] is followed by nothing, so
    it is no zone chunk but a literal. *)
Definition layoutMilliZ : list chunk :=
  [stdLongYear; lit "-"; stdZeroMonth; lit "-"; stdZeroDay; lit "T";
   stdHour; lit ":"; stdZeroMinute; lit ":"; stdZeroSecond; stdFracSecond9 3;
   lit "Z"].

(** *** Formatting *)

(** [appendInt(b, x, width)]: decimal, zero-padded to [width], after a
    minus sign when negative. *)
Definition appendInt (x : Z) (width : nat) : string :=
  let u := Z.abs x in
  let digits := decimal u in
  (if x <? 0 then "-" else "") ++
  zeros (width - String.length digits) ++ digits.

(** Removes the zeros at the end of a string of digits. *)
Fixpoint trimZeros (s : string) : string :=
  match s with
  | EmptyString => EmptyString
  | String c s' =>
      match trimZeros s' with
      | EmptyString => if Ascii.eqb c "0" then EmptyString else String c EmptyString
      | r => String c r
      end
  end.

(** [formatNano(b, nanosec, n, trim)] *)
Definition formatNano (nanosec : Z) (n : nat) (trim : bool) : string :=
  (* the buffer of nine digits *)
  let buf := appendInt (nanosec mod 1000000000) 9 in
  let n := Nat.min n 9 in
  let digits := strTake n buf in
  let digits := if trim then trimZeros digits else digits in
  if trim && (String.length digits =? 0)%nat then "" else "." ++ digits.

Definition formatChunk (t : Time) (c : chunk) : string :=
  let a := abs t in
  let '(year, month, day) := absDate a in
  let '(hour, min, s) := absClock a in
  match c with
  | lit s => s
  | stdLongYear => appendInt year 4
  | stdZeroMonth => appendInt month 2
  | stdZeroDay => appendInt day 2
  | stdHour => appendInt hour 2
  | stdZeroMinute => appendInt min 2
  | stdZeroSecond => appendInt s 2
  | stdFracSecond0 n => formatNano (nsec t) n false
  | stdFracSecond9 n => formatNano (nsec t) n true
  | stdISO8601ColonTZ =>
      if offset t =? 0 then "Z"
      else
        let zone := offset t ÷ 60 in
        (if zone <? 0 then "-" else "+") ++
        appendInt (Z.abs zone ÷ 60) 2 ++ ":" ++ appendInt (Z.rem (Z.abs zone) 60) 2
  end.

(** [t.Format(layout)] *)
Definition Format (t : Time) (layout : list chunk) : string :=
  fold_right (fun c r => formatChunk t c ++ r) "" layout.

(** *** Parsing *)

Inductive ParseError :=
  | errBad                        (* the value does not fit the layout element *)
  | errRange (what : string)      (* ": <what> out of range" *)
  | errExtraText (rest : string)  (* ": extra text: <rest>" *)
  | errDayOutOfRange.             (* ": day out of range" *)

(** [isDigit(s, i)] *)
Definition isDigit (s : string) (i : nat) : bool :=
  match String.get i s with
  | Some c => isDigitByte c
  | None => false
  end.

Definition startsWith (s : string) (c : ascii) : bool :=
  match s with
  | String c' _ => Ascii.eqb c' c
  | EmptyString => false
  end.

(** [getnum(s, fixed)]: one or two digits; two when [fixed]. The boolean
    is the error. *)
Definition getnum (s : string) (fixed : bool) : Z * string * bool :=
  if negb (isDigit s 0) then (0, s, true)
  else if negb (isDigit s 1) then
    if fixed then (0, s, true)
    else (match s with
          | String c r => (digitVal c, r, false)
          | EmptyString => (0, s, true)
          end)
  else
    match s with
    | String c0 (String c1 r) => (digitVal c0 * 10 + digitVal c1, r, false)
    | _ => (0, s, true)
    end.

(** [leadingInt(s)], from the accumulator [x]: the leading digits as an
    [int64], [None] on overflow. *)
Fixpoint leadingInt (s : string) (x : Z) : option (Z * string) :=
  match s with
  | EmptyString => Some (x, s)
  | String c r =>
      if negb (isDigitByte c) then Some (x, s)
      else if x >? (2 ^ 63 - 1) ÷ 10 then None
      else
        let x := int64 (x * 10 + byteVal c - 48) in
        if x <? 0 then None else leadingInt r x
  end.

(** [atoi(s)]: an optional sign, then digits only. *)
Definition atoi (s : string) : option Z :=
  let '(neg, s) :=
    if startsWith s "-" || startsWith s "+"
    then (startsWith s "-", strDrop 1 s) else (false, s) in
  match leadingInt s 0 with
  | Some (q, EmptyString) => Some (if neg then - q else q)
  | _ => None
  end.

(** [parseNanoseconds(value, nbytes)]: the value, the range error and the
    error. *)
Definition parseNanoseconds (value : string) (nbytes : nat)
  : Z * option string * bool :=
  if negb (startsWith value ".") then (0, None, true)
  else
    match atoi (strTake (nbytes - 1) (strDrop 1 value)) with
    | None => (0, None, true)
    | Some ns =>
        if (ns <? 0) || (1000000000 <=? ns)
        then (ns, Some "fractional second", false)
        else (ns * 10 ^ Z.of_nat (10 - nbytes), None, false)
    end.

(** The number of digits at the start of [s]. *)
Fixpoint digitRun (s : string) : nat :=
  match s with
  | String c r => if isDigitByte c then S (digitRun r) else O
  | EmptyString => O
  end.

(** The time being constructed by [parse]. *)
Record fields := mkFields {
  f_year : Z; f_month : Z; f_day : Z;
  f_hour : Z; f_min : Z; f_sec : Z; f_nsec : Z;
  f_z : bool;             (* z = UTC *)
  f_zoneOffset : Z }.

Definition fields0 : fields := mkFields 0 1 1 0 0 0 0 false (-1).

Definition setYear (fs : fields) (v : Z) : fields :=
  mkFields v (f_month fs) (f_day fs) (f_hour fs) (f_min fs) (f_sec fs)
           (f_nsec fs) (f_z fs) (f_zoneOffset fs).
Definition setMonth (fs : fields) (v : Z) : fields :=
  mkFields (f_year fs) v (f_day fs) (f_hour fs) (f_min fs) (f_sec fs)
           (f_nsec fs) (f_z fs) (f_zoneOffset fs).
Definition setDay (fs : fields) (v : Z) : fields :=
  mkFields (f_year fs) (f_month fs) v (f_hour fs) (f_min fs) (f_sec fs)
           (f_nsec fs) (f_z fs) (f_zoneOffset fs).
Definition setHour (fs : fields) (v : Z) : fields :=
  mkFields (f_year fs) (f_month fs) (f_day fs) v (f_min fs) (f_sec fs)
           (f_nsec fs) (f_z fs) (f_zoneOffset fs).
Definition setMin (fs : fields) (v : Z) : fields :=
  mkFields (f_year fs) (f_month fs) (f_day fs) (f_hour fs) v (f_sec fs)
           (f_nsec fs) (f_z fs) (f_zoneOffset fs).
Definition setSec (fs : fields) (v : Z) : fields :=
  mkFields (f_year fs) (f_month fs) (f_day fs) (f_hour fs) (f_min fs) v
           (f_nsec fs) (f_z fs) (f_zoneOffset fs).
Definition setNsec (fs : fields) (v : Z) : fields :=
  mkFields (f_year fs) (f_month fs) (f_day fs) (f_hour fs) (f_min fs) (f_sec fs)
           v (f_z fs) (f_zoneOffset fs).
Definition setUTC (fs : fields) : fields :=
  mkFields (f_year fs) (f_month fs) (f_day fs) (f_hour fs) (f_min fs) (f_sec fs)
           (f_nsec fs) true (f_zoneOffset fs).
Definition setZoneOffset (fs : fields) (v : Z) : fields :=
  mkFields (f_year fs) (f_month fs) (f_day fs) (f_hour fs) (f_min fs) (f_sec fs)
           (f_nsec fs) (f_z fs) v.

(** The end of an iteration of the loop of [parse]: a range error is
    reported before any other error. *)
Definition endChunk (range : option string) (err : bool)
    (fs : fields) (value : string) : ParseError + fields * string :=
  match range with
  | Some what => inl (errRange what)
  | None => if err then inl errBad else inr (fs, value)
  end.

(** [skip(value, prefix)] for a literal without spaces, as are the literals
    of the layouts above. *)
Fixpoint skip (value prefix : string) {struct prefix} : option string :=
  match prefix with
  | EmptyString => Some value
  | String p prefix' =>
      match value with
      | String c value' => if Ascii.eqb c p then skip value' prefix' else None
      | EmptyString => None
      end
  end.

(** The next standard chunk of the layout, as [nextStdChunk] finds it. *)
Fixpoint nextStd (layout : list chunk) : option chunk :=
  match layout with
  | [] => None
  | lit _ :: layout' => nextStd layout'
  | c :: _ => Some c
  end.

Definition isFrac (c : option chunk) : bool :=
  match c with
  | Some (stdFracSecond0 _) | Some (stdFracSecond9 _) => true
  | _ => false
  end.

(** One iteration of the loop of [parse]: the chunk [c], followed in the
    layout by [rest]. *)
Definition parseChunk (c : chunk) (rest : list chunk)
    (fs : fields) (value : string) : ParseError + fields * string :=
  match c with
  | lit prefix =>
      match skip value prefix with
      | Some value => inr (fs, value)
      | None => inl errBad
      end
  | stdLongYear =>
      if (strLen value <? 4) || negb (isDigit value 0) then inl errBad
      else
        match atoi (strTake 4 value) with
        | Some year => inr (setYear fs year, strDrop 4 value)
        | None => inl errBad
        end
  | stdZeroMonth =>
      let '(month, value, err) := getnum value true in
      endChunk (if (month <=? 0) || (12 <? month) then Some "month" else None)
               err (setMonth fs month) value
  | stdZeroDay =>
      let '(day, value, err) := getnum value true in
      endChunk (if day <? 0 then Some "day" else None) err (setDay fs day) value
  | stdHour =>
      let '(hour, value, err) := getnum value false in
      endChunk (if (hour <? 0) || (24 <=? hour) then Some "hour" else None)
               err (setHour fs hour) value
  | stdZeroMinute =>
      let '(min, value, err) := getnum value true in
      endChunk (if (min <? 0) || (60 <=? min) then Some "minute" else None)
               err (setMin fs min) value
  | stdZeroSecond =>
      let '(sec, value, err) := getnum value true in
      let fs := setSec fs sec in
      if (sec <? 0) || (60 <=? sec) then inl (errRange "second")
      else if (2 <=? strLen value) && startsWith value "." && isDigit value 1
      then
        (* a fractional second in the value *)
        if isFrac (nextStd rest) then endChunk None err fs value
        else
          (* none in the layout: it is read here *)
          let n := (2 + digitRun (strDrop 2 value))%nat in
          let '(nsec, range, err) := parseNanoseconds value n in
          endChunk range err (setNsec fs nsec) (strDrop n value)
      else endChunk None err fs value
  | stdFracSecond0 n =>
      let ndigit := (1 + n)%nat in
      if strLen value <? Z.of_nat ndigit then inl errBad
      else
        let '(nsec, range, err) := parseNanoseconds value ndigit in
        endChunk range err (setNsec fs nsec) (strDrop ndigit value)
  | stdFracSecond9 _ =>
      if (strLen value <? 2) || negb (startsWith value ".")
         || negb (isDigit value 1)
      then inr (fs, value)
      else
        let i := Nat.min 9 (digitRun (strDrop 1 value)) in
        let '(nsec, range, err) := parseNanoseconds value (1 + i) in
        endChunk range err (setNsec fs nsec) (strDrop (1 + i) value)
  | stdISO8601ColonTZ =>
      if (1 <=? strLen value) && startsWith value "Z"
      then inr (setUTC fs, strDrop 1 value)
      else if strLen value <? 6 then inl errBad
      else if negb (startsWith (strDrop 3 value) ":") then inl errBad
      else
        let sign := strTake 1 value in
        let hour := strTake 2 (strDrop 1 value) in
        let min := strTake 2 (strDrop 4 value) in
        let value := strDrop 6 value in
        match atoi hour with
        | None => inl errBad
        | Some hr =>
            match atoi min with
            | None => inl errBad
            | Some mm =>
                (* the seconds are "00" *)
                let zoneOffset := (hr * 60 + mm) * 60 + 0 in
                if startsWith sign "+" then inr (setZoneOffset fs zoneOffset, value)
                else if startsWith sign "-"
                then inr (setZoneOffset fs (- zoneOffset), value)
                else inl errBad
            end
        end
  end.

Fixpoint parseLoop (layout : list chunk) (fs : fields) (value : string)
  : ParseError + fields * string :=
  match layout with
  | [] =>
      if strLen value =? 0 then inr (fs, value) else inl (errExtraText value)
  | c :: rest =>
      match parseChunk c rest fs value with
      | inl e => inl e
      | inr (fs, value) => parseLoop rest fs value
      end
  end.

(** [time.Parse(layout, value)] *)
Definition Parse (layout : list chunk) (value : string) : ParseError + Time :=
  match parseLoop layout fields0 value with
  | inl e => inl e
  | inr (fs, _) =>
      (* validate the day of the month *)
      if (f_day fs <? 1) || (f_day fs >? daysIn (f_month fs) (f_year fs))
      then inl errDayOutOfRange
      else
        let t := Date (f_year fs) (f_month fs) (f_day fs)
                      (f_hour fs) (f_min fs) (f_sec fs) (f_nsec fs) in
        if f_z fs then inr t
        else if negb (f_zoneOffset fs =? -1) then
          (* t.addSec(-zoneOffset), in a zone of that offset *)
          inr (mkTime (int64 (sec t - f_zoneOffset fs)) (nsec t)
                      (f_zoneOffset fs))
        else inr t
  end.

End time.

(** [fmt.Sprintf("%d", z)] *)
Definition formatInt (z : Z) : string := NilZero.string_of_int (Z.to_int z).

(** ** Errors

    One constructor for each place an error is built (the message of
    [fmt.Errorf] with its arguments), and [ExternalError] for the errors
    that come from the client and from the helpers outside this file. *)
Inductive error :=
  | ExternalError (msg : string)
  (* "Error checking for present of existing Automation Datetime Variable ..." *)
  | ErrorCheckingPresence (name accountName resourceGroup : string) (err : error)
  (* tf.ImportAsExistsError(resourceName, id) *)
  | ImportAsExistsError (resourceName id : string)
  (* "Error invalid time format: ..." *)
  | ErrorInvalidTimeFormat (parseErr : time.ParseError)
  (* "Error creating Automation Datetime Variable ..." *)
  | ErrorCreating (name accountName resourceGroup : string) (err : error)
  (* "Error retrieving Automation Datetime Variable ..." *)
  | ErrorRetrieving (name accountName resourceGroup : string) (err : error)
  (* "Cannot read Automation Datetime Variable ... ID" *)
  | ErrorCannotReadID (name accountName resourceGroup : string)
  (* "Error reading Automation Datetime Variable ..." *)
  | ErrorReading (name accountName resourceGroup : string) (err : error)
  (* "Error deleting Automation Datetime Variable ..." *)
  | ErrorDeleting (name accountName resourceGroup : string) (err : error)
  (* "Bad: Get on automationVariableClient: ..." *)
  | ErrorBadGet (err : error)
  (* "Automation Int Variable not found: ..." *)
  | ErrorNotInState (resourceName : string)
  (* "Bad: Automation Int Variable ... does not exist" *)
  | ErrorDoesNotExist (name accountName resourceGroup : string).

(** ** The SDK's types *)

Module autorest.
Record http_Response := { StatusCode : Z }.
(** [autorest.Response]: a pointer to the HTTP response, possibly nil. *)
Record Response := { response : option http_Response }.
End autorest.

Module automation.
Record VariableProperties := {
  Value : option string;
  IsEncrypted : option bool;
  Description : option string }.

(** [automation.Variable], the record [Get] returns. *)
Record Variable_ := {
  Response : autorest.Response;
  ID : option string;
  Name : option string;
  Properties : option VariableProperties }.

Record VariableCreateOrUpdateProperties := {
  cu_Value : option string;
  cu_Description : option string;
  cu_IsEncrypted : option bool }.

Record VariableCreateOrUpdateParameters := {
  cu_Name : option string;
  cu_Properties : option VariableCreateOrUpdateProperties }.

(** [automation.VariableClient]: the three calls, each from the state
    of the remote service to a result and the state after the call. *)
Record VariableClient (World : Type) := {
  Get : string -> string -> string -> World ->
        (Variable_ * option error) * World;
  CreateOrUpdate : string -> string -> string ->
        VariableCreateOrUpdateParameters -> World ->
        (Variable_ * option error) * World;
  Delete : string -> string -> string -> World ->
        (autorest.Response * option error) * World }.
Arguments Get {World}.
Arguments CreateOrUpdate {World}.
Arguments Delete {World}.
End automation.

Module utils.
(** Modelled from the spec: [utils.ResponseWasNotFound] is not among the
    sources; it tells whether a response is the service's not-found
    response, which is the one of HTTP status 404. *)
Definition ResponseWasNotFound (resp : autorest.Response) : bool :=
  match autorest.response resp with
  | Some r => autorest.StatusCode r =? 404
  | None => false
  end.

(** [utils.String], [utils.Bool]: a pointer to the value. *)
Definition String (s : string) : option string := Some s.
Definition Bool (b : bool) : option bool := Some b.
End utils.

(** [ResourceID], the result of [parseAzureResourceID]. *)
Record ResourceID := {
  SubscriptionID : string;
  ResourceGroup : string;
  Provider : string;
  Path : gmap string string }.

(** [m[k]] on a Go map of strings: the empty string when absent. *)
Definition index (m : gmap string string) (k : string) : string :=
  default "" (m !! k).

(** A value of type [interface{}] as [ParseAzureRmAutomationVariableValue]
    returns it. *)
Inductive any :=
  | VNil
  | VTime (t : time.Time)
  | VString (s : string)
  | VInt (z : Z)
  | VBool (b : bool).

Module schema.
(** [schema.ResourceData] of this resource: the identifier and the
    fields of the schema. *)
Record ResourceData := {
  Id : string;
  name : string;
  resource_group_name : string;
  automation_account_name : string;
  description : string;
  encrypted : bool;
  value : string }.

Definition SetId (v : string) (d : ResourceData) : ResourceData :=
  {| Id := v; name := name d; resource_group_name := resource_group_name d;
     automation_account_name := automation_account_name d;
     description := description d; encrypted := encrypted d;
     value := value d |}.
Definition set_name (v : string) (d : ResourceData) : ResourceData :=
  {| Id := Id d; name := v; resource_group_name := resource_group_name d;
     automation_account_name := automation_account_name d;
     description := description d; encrypted := encrypted d;
     value := value d |}.
Definition set_resource_group_name (v : string) (d : ResourceData) : ResourceData :=
  {| Id := Id d; name := name d; resource_group_name := v;
     automation_account_name := automation_account_name d;
     description := description d; encrypted := encrypted d;
     value := value d |}.
Definition set_automation_account_name (v : string) (d : ResourceData) : ResourceData :=
  {| Id := Id d; name := name d; resource_group_name := resource_group_name d;
     automation_account_name := v;
     description := description d; encrypted := encrypted d;
     value := value d |}.
Definition set_description (v : string) (d : ResourceData) : ResourceData :=
  {| Id := Id d; name := name d; resource_group_name := resource_group_name d;
     automation_account_name := automation_account_name d;
     description := v; encrypted := encrypted d;
     value := value d |}.
Definition set_encrypted (v : bool) (d : ResourceData) : ResourceData :=
  {| Id := Id d; name := name d; resource_group_name := resource_group_name d;
     automation_account_name := automation_account_name d;
     description := description d; encrypted := v;
     value := value d |}.
Definition set_value (v : string) (d : ResourceData) : ResourceData :=
  {| Id := Id d; name := name d; resource_group_name := resource_group_name d;
     automation_account_name := automation_account_name d;
     description := description d; encrypted := encrypted d;
     value := v |}.
End schema.

Module terraform.
Record InstanceState := { Attributes : gmap string string }.
(** [terraform.ResourceState]; [Primary] is a pointer. *)
Record ResourceState := { Type_ : string; Primary : option InstanceState }.
End terraform.

(** ** Effects

    A lifecycle function works on the resource data it was handed and on
    the remote service, through the client. It returns, fails with an
    error, or panics; what it did to the data and to the service before
    that stays done. The calls made to the client are recorded. *)

Inductive call :=
  | CallGet (resourceGroup accountName name : string)
  | CallCreateOrUpdate (resourceGroup accountName name : string)
      (parameters : automation.VariableCreateOrUpdateParameters)
  | CallDelete (resourceGroup accountName name : string).

Definition isCreateOrUpdate (c : call) : bool :=
  match c with
  | CallCreateOrUpdate _ _ _ _ => true
  | _ => false
  end.

Inductive outcome (A : Type) :=
  | Returned (a : A)
  | Failed (e : error)
  | Panicked.
Arguments Returned {A}.
Arguments Failed {A}.
Arguments Panicked {A}.

Record Env (D World : Type) := mkEnv {
  data : D;
  remote : World;
  calls : list call }.
Arguments mkEnv {D World}.
Arguments data {D World}.
Arguments remote {D World}.
Arguments calls {D World}.

Definition Op (S A : Type) : Type := S -> outcome A * S.

Definition ret {S A} (a : A) : Op S A := fun s => (Returned a, s).
Definition fail {S A} (e : error) : Op S A := fun s => (Failed e, s).
Definition panic {S A} : Op S A := fun s => (Panicked, s).
Definition bind {S A B} (m : Op S A) (k : A -> Op S B) : Op S B :=
  fun s =>
    match m s with
    | (Returned a, s') => k a s'
    | (Failed e, s') => (Failed e, s')
    | (Panicked, s') => (Panicked, s')
    end.

Declare Scope op_scope.
Delimit Scope op_scope with op.
Notation "x <- m ;; k" := (bind m (fun x => k))
  (at level 100, m at next level, k at level 200, right associativity)
  : op_scope.
Notation "m ;;; k" := (bind m (fun _ => k))
  (at level 100, k at level 200, right associativity) : op_scope.

(** [*p]: a nil pointer panics. *)
Definition deref {S A} (p : option A) : Op S A :=
  match p with
  | Some a => ret a
  | None => panic
  end.

(** [v.(time.Time)]: any other value panics. *)
Definition assertTime {S} (v : any) : Op S time.Time :=
  match v with
  | VTime t => ret t
  | _ => panic
  end.

(** [d.Set(key, p)] with a pointer [p]: the value pointed to, the zero
    value for nil. *)
Definition orZero (p : option string) : string := default "" p.
Definition orFalse (p : option bool) : bool := default false p.

(** ** The resource *)

Section Resource.

Context {World : Type}.
(** The client [automationVariableClient] of the provider's [ArmClient]. *)
Variable client : automation.VariableClient World.
(** The package's flag [requireResourcesToBeImported]. *)
Variable requireResourcesToBeImported : bool.
(** [parseAzureResourceID], of this package but not of these files. *)
Variable parseAzureResourceID : string -> error + ResourceID.
(** [azure.ParseAzureRmAutomationVariableValue(resource, input)], a helper
    outside these files. *)
Variable ParseAzureRmAutomationVariableValue :
  string -> option string -> error + any.

Local Open Scope op_scope.

Section Calls.
Context {D : Type}.

Definition clientGet (resourceGroup accountName name : string)
  : Op (Env D World) (automation.Variable_ * option error) :=
  fun s =>
    let '(r, w) := automation.Get client resourceGroup accountName name (remote s) in
    (Returned r,
     mkEnv (data s) w (calls s ++ [CallGet resourceGroup accountName name])).

Definition clientCreateOrUpdate (resourceGroup accountName name : string)
    (parameters : automation.VariableCreateOrUpdateParameters)
  : Op (Env D World) (automation.Variable_ * option error) :=
  fun s =>
    let '(r, w) :=
      automation.CreateOrUpdate client resourceGroup accountName name
                                parameters (remote s) in
    (Returned r,
     mkEnv (data s) w
           (calls s ++ [CallCreateOrUpdate resourceGroup accountName name parameters])).

Definition clientDelete (resourceGroup accountName name : string)
  : Op (Env D World) (autorest.Response * option error) :=
  fun s =>
    let '(r, w) := automation.Delete client resourceGroup accountName name (remote s) in
    (Returned r,
     mkEnv (data s) w (calls s ++ [CallDelete resourceGroup accountName name])).
End Calls.

Abbreviation State := (Env schema.ResourceData World).

(** [d.Get(key)], [d.Id()] *)
Definition dGet {A} (field : schema.ResourceData -> A) : Op State A :=
  fun s => (Returned (field (data s)), s).

(** [d.Set(key, v)], [d.SetId(v)] *)
Definition dSet (update : schema.ResourceData -> schema.ResourceData)
  : Op State unit :=
  fun s => (Returned tt, mkEnv (update (data s)) (remote s) (calls s)).

(** The encoded value of line 89: [fmt.Sprintf] of the milliseconds
    [vTime.UnixNano()/1000000] with [%d] inside the wrapper, which is a
    double quote, a backslash, [/Date(], the number, [)], a backslash, [/]
    and a double quote. *)
Definition dateToken (ms : Z) : string :=
  dquote ++ backslash ++ "/Date(" ++ formatInt ms ++ ")" ++ backslash ++ "/"
  ++ dquote.

Definition encodedValue (vTime : time.Time) : string :=
  dateToken (time.UnixNano vTime ÷ 1000000).

(** Lines 71 to 81 of [resourceArmAutomationDatetimeVariableCreateUpdate]:
    with [requireResourcesToBeImported], the check that no such variable
    is there already. *)
Definition checkExisting (name resourceGroup accountName : string)
  : Op State unit :=
  if requireResourcesToBeImported then
    r <- clientGet resourceGroup accountName name ;;
    let '(resp, err) := r in
    (match err with
     | Some e =>
         if negb (utils.ResponseWasNotFound (automation.Response resp))
         then fail (ErrorCheckingPresence name accountName resourceGroup e)
         else ret tt
     | None => ret tt
     end) ;;;
    if negb (utils.ResponseWasNotFound (automation.Response resp)) then
      id <- deref (automation.ID resp) ;;
      fail (ImportAsExistsError "azurerm_automation_datetime_variable" id)
    else ret tt
  else ret tt.

(** [resourceArmAutomationDatetimeVariableRead] *)
Definition resourceArmAutomationDatetimeVariableRead : Op State unit :=
  dId <- dGet schema.Id ;;
  match parseAzureResourceID dId with
  | inl err => fail err
  | inr id =>
      let resourceGroup := ResourceGroup id in
      let accountName := index (Path id) "automationAccounts" in
      let name := index (Path id) "variables" in
      r <- clientGet resourceGroup accountName name ;;
      let '(resp, err) := r in
      match err with
      | Some e =>
          if utils.ResponseWasNotFound (automation.Response resp) then
            (* does not exist: removed from the state *)
            dSet (schema.SetId "") ;;;
            ret tt
          else fail (ErrorReading name accountName resourceGroup e)
      | None =>
          dSet (schema.set_name (orZero (automation.Name resp))) ;;;
          dSet (schema.set_resource_group_name resourceGroup) ;;;
          dSet (schema.set_automation_account_name accountName) ;;;
          match automation.Properties resp with
          | Some properties =>
              dSet (schema.set_description
                      (orZero (automation.Description properties))) ;;;
              dSet (schema.set_encrypted
                      (orFalse (automation.IsEncrypted properties))) ;;;
              enc <- dGet schema.encrypted ;;
              if negb enc then
                match ParseAzureRmAutomationVariableValue
                        "azurerm_automation_datetime_variable"
                        (automation.Value properties) with
                | inl err => fail err
                | inr value =>
                    t <- assertTime value ;;
                    dSet (schema.set_value (time.Format t time.layoutMilliZ)) ;;;
                    ret tt
                end
              else ret tt
          | None => ret tt
          end
      end
  end.

(** [resourceArmAutomationDatetimeVariableCreateUpdate] *)
Definition resourceArmAutomationDatetimeVariableCreateUpdate : Op State unit :=
  name <- dGet schema.name ;;
  resourceGroup <- dGet schema.resource_group_name ;;
  accountName <- dGet schema.automation_account_name ;;
  checkExisting name resourceGroup accountName ;;;
  description <- dGet schema.description ;;
  encrypted <- dGet schema.encrypted ;;
  value_ <- dGet schema.value ;;
  match time.Parse time.RFC3339 value_ with
  | inl parseErr => fail (ErrorInvalidTimeFormat parseErr)
  | inr vTime =>
      let value := encodedValue vTime in
      let parameters :=
        {| automation.cu_Name := utils.String name;
           automation.cu_Properties := Some
             {| automation.cu_Value := utils.String value;
                automation.cu_Description := utils.String description;
                automation.cu_IsEncrypted := utils.Bool encrypted |} |} in
      r <- clientCreateOrUpdate resourceGroup accountName name parameters ;;
      match snd r with
      | Some err => fail (ErrorCreating name accountName resourceGroup err)
      | None =>
          r <- clientGet resourceGroup accountName name ;;
          let '(resp, err) := r in
          match err with
          | Some err => fail (ErrorRetrieving name accountName resourceGroup err)
          | None =>
              match automation.ID resp with
              | None => fail (ErrorCannotReadID name accountName resourceGroup)
              | Some id =>
                  dSet (schema.SetId id) ;;;
                  resourceArmAutomationDatetimeVariableRead
              end
          end
      end
  end.

(** [resourceArmAutomationDatetimeVariableDelete] *)
Definition resourceArmAutomationDatetimeVariableDelete : Op State unit :=
  dId <- dGet schema.Id ;;
  match parseAzureResourceID dId with
  | inl err => fail err
  | inr id =>
      let resourceGroup := ResourceGroup id in
      let accountName := index (Path id) "automationAccounts" in
      let name := index (Path id) "variables" in
      r <- clientDelete resourceGroup accountName name ;;
      match snd r with
      | Some err => fail (ErrorDeleting name accountName resourceGroup err)
      | None => ret tt
      end
  end.

(** The loop of [testCheckAzureRMAutomationIntVariableDestroy] over
    [s.RootModule().Resources], a Go map: [resources] holds its entries in
    the order in which [range] goes through them. *)
Fixpoint destroyLoop (resources : list (string * terraform.ResourceState))
  : Op (Env unit World) unit :=
  match resources with
  | [] => ret tt
  | (_, rs) :: rest =>
      if negb (String.eqb (terraform.Type_ rs) "azurerm_automation_int_variable")
      then destroyLoop rest
      else
        primary <- deref (terraform.Primary rs) ;;
        let name := index (terraform.Attributes primary) "name" in
        let resourceGroup := index (terraform.Attributes primary) "resource_group_name" in
        let accountName := index (terraform.Attributes primary) "automation_account_name" in
        r <- clientGet resourceGroup accountName name ;;
        let '(resp, err) := r in
        (match err with
         | Some e =>
             if negb (utils.ResponseWasNotFound (automation.Response resp))
             then fail (ErrorBadGet e)
             else ret tt
         | None => ret tt
         end) ;;;
        ret tt
  end.

(** [testCheckAzureRMAutomationIntVariableDestroy] *)
Definition testCheckAzureRMAutomationIntVariableDestroy
    (resources : list (string * terraform.ResourceState))
  : Op (Env unit World) unit :=
  destroyLoop resources.

(** [testCheckAzureRMAutomationIntVariableExists(resourceName)], applied to
    the resources of the root module of the state. *)
Definition testCheckAzureRMAutomationIntVariableExists
    (resourceName : string) (resources : gmap string terraform.ResourceState)
  : Op (Env unit World) unit :=
  match resources !! resourceName with
  | None => fail (ErrorNotInState resourceName)
  | Some rs =>
      primary <- deref (terraform.Primary rs) ;;
      let name := index (terraform.Attributes primary) "name" in
      let resourceGroup := index (terraform.Attributes primary) "resource_group_name" in
      let accountName := index (terraform.Attributes primary) "automation_account_name" in
      r <- clientGet resourceGroup accountName name ;;
      let '(resp, err) := r in
      match err with
      | Some e =>
          if utils.ResponseWasNotFound (automation.Response resp)
          then fail (ErrorDoesNotExist name accountName resourceGroup)
          else fail (ErrorBadGet e)
      | None => ret tt
      end
  end.

End Resource.

(** ** The decoder of the value *)

(** [stripSuffix suffix s]: [s] without [suffix] at its end. *)
Definition stripSuffix (suffix s : string) : option string :=
  let n := (String.length s - String.length suffix)%nat in
  if String.eqb (strDrop n s) suffix then Some (strTake n s) else None.

(** The number inside the wrapper: a double quote, a backslash, [/Date(],
    an integer, [)], a backslash, [/], a double quote. *)
Definition parseDateToken (s : string) : option Z :=
  match time.skip s (dquote ++ backslash ++ "/Date(") with
  | Some r =>
      match stripSuffix (")" ++ backslash ++ "/" ++ dquote) r with
      | Some digits => option_map Z.of_int (NilZero.int_of_string digits)
      | None => None
      end
  | None => None
  end.

(** The time [ms] milliseconds after the epoch, in UTC. *)
Definition timeOfMillis (ms : Z) : time.Time :=
  time.mkTime (ms / 1000) (ms mod 1000 * 1000000) 0.

(** Modelled from the spec: [azure.ParseAzureRmAutomationVariableValue] is
    not among the sources. For a date-time variable the spec has the decoder
    extract the millisecond integer from the wrapper token and reconstruct a
    timestamp, and fail with a value decode error when the shape of the token
    does not match. *)
Definition decodeVariableValue (resource : string) (input : option string)
  : error + any :=
  match input with
  | Some s =>
      match parseDateToken s with
      | Some ms => inr (VTime (timeOfMillis ms))
      | None => inl (ExternalError "ValueDecodeError")
      end
  | None => inl (ExternalError "ValueDecodeError")
  end.

(** ** A service kept in memory

    A client over a finite map from the key of a variable to what was last
    written to it, to run the lifecycle functions on examples. A variable
    that is not there is answered with status 404 and an error, by [Get] and
    by [Delete] alike; the value of an encrypted variable is not returned. *)
Module memory.

Definition World : Type :=
  gmap (string * string * string) automation.VariableCreateOrUpdateProperties.

Definition canonicalId (resourceGroup accountName name : string) : string :=
  "/subscriptions/sub/resourceGroups/" ++ resourceGroup
  ++ "/providers/Microsoft.Automation/automationAccounts/" ++ accountName
  ++ "/variables/" ++ name.

Definition status (code : Z) : autorest.Response :=
  {| autorest.response := Some {| autorest.StatusCode := code |} |}.

Definition notFound : automation.Variable_ :=
  {| automation.Response := status 404; automation.ID := None;
     automation.Name := None; automation.Properties := None |}.

Definition record (resourceGroup accountName name : string)
    (p : automation.VariableCreateOrUpdateProperties) : automation.Variable_ :=
  {| automation.Response := status 200;
     automation.ID := Some (canonicalId resourceGroup accountName name);
     automation.Name := Some name;
     automation.Properties := Some
       {| automation.Value :=
            if orFalse (automation.cu_IsEncrypted p) then None
            else automation.cu_Value p;
          automation.IsEncrypted := automation.cu_IsEncrypted p;
          automation.Description := automation.cu_Description p |} |}.

Definition Get (resourceGroup accountName name : string) (w : World)
  : (automation.Variable_ * option error) * World :=
  match w !! (resourceGroup, accountName, name) with
  | Some p => ((record resourceGroup accountName name p, None), w)
  | None => ((notFound, Some (ExternalError "ResourceNotFound")), w)
  end.

Definition CreateOrUpdate (resourceGroup accountName name : string)
    (parameters : automation.VariableCreateOrUpdateParameters) (w : World)
  : (automation.Variable_ * option error) * World :=
  match automation.cu_Properties parameters with
  | Some p =>
      ((record resourceGroup accountName name p, None),
       <[(resourceGroup, accountName, name) := p]> w)
  | None => ((notFound, Some (ExternalError "BadRequest")), w)
  end.

Definition Delete (resourceGroup accountName name : string) (w : World)
  : (autorest.Response * option error) * World :=
  match w !! (resourceGroup, accountName, name) with
  | Some _ => ((status 200, None), delete (resourceGroup, accountName, name) w)
  | None => ((status 404, Some (ExternalError "ResourceNotFound")), w)
  end.

Definition client : automation.VariableClient World :=
  {| automation.Get := Get;
     automation.CreateOrUpdate := CreateOrUpdate;
     automation.Delete := Delete |}.

(** The identifier of the one variable of the examples, parsed. *)
Definition parseId (id : string) : error + ResourceID :=
  if String.eqb id (canonicalId "rg" "acct" "v1") then
    inr {| SubscriptionID := "sub"; ResourceGroup := "rg";
           Provider := "Microsoft.Automation";
           Path := {[ "automationAccounts" := "acct"; "variables" := "v1" ]} |}
  else inl (ExternalError "MalformedIdentifier").

(** The data of a variable [v1] of account [acct] in group [rg]. *)
Definition variable (id value : string) (encrypted : bool)
  : schema.ResourceData :=
  {| schema.Id := id; schema.name := "v1";
     schema.resource_group_name := "rg";
     schema.automation_account_name := "acct";
     schema.description := ""; schema.encrypted := encrypted;
     schema.value := value |}.

Definition start {D} (d : D) (w : World) : Env D World := mkEnv d w [].

End memory.

(** ** Definitions used in the statements and the proofs *)

(** The calls [s'] records after those of [s] hold no [CreateOrUpdate]. *)
Definition noCreateOrUpdateSince {D World} (s s' : Env D World) : Prop :=
  exists l, calls s' = (calls s ++ l)%list /\
            forallb (fun c => negb (isCreateOrUpdate c)) l = true.

(** The first resource of the type the destroy check looks at, in the order
    of the loop. *)
Fixpoint firstIntVariable (resources : list (string * terraform.ResourceState))
  : list (string * terraform.ResourceState) :=
  match resources with
  | [] => []
  | (k, rs) :: rest =>
      if String.eqb (terraform.Type_ rs) "azurerm_automation_int_variable"
      then [(k, rs)] else firstIntVariable rest
  end.

(** [unixToInternal + internalToAbsolute]: the Unix epoch in seconds since
    the absolute zero year. *)
Definition unixToAbsolute : Z := 9223372028715321600.

(** [P] holds of the [n] integers from [z] on. *)
Fixpoint allFrom (P : Z -> bool) (n : nat) (z : Z) : bool :=
  match n with
  | O => true
  | S n => P z && allFrom P n (z + 1)
  end.

(** What is to be checked of [time.monthDay] on a day of the year. *)
Definition monthDayOk (leap : bool) (yday : Z) : bool :=
  let '(m, d) := time.monthDay leap yday in
  (1 <=? m) && (m <=? 12) && (1 <=? d)
  && (d <=? if (m =? 2) && leap then 29
            else time.daysBefore m - time.daysBefore (m - 1))
  && (time.daysBefore (m - 1) + (if leap && (m >=? 3) then 1 else 0) + (d - 1)
      =? yday).

(** The character of a decimal digit, and numbers written with two and
    with four digits. *)
Definition digitChar (d : Z) : ascii := ascii_of_nat (48 + Z.to_nat d).

Definition two (n : Z) : string :=
  String (digitChar (n / 10)) (String (digitChar (n mod 10)) EmptyString).

Definition four (n : Z) : string :=
  String (digitChar (n / 1000)) (String (digitChar (n / 100 mod 10))
    (String (digitChar (n / 10 mod 10)) (String (digitChar (n mod 10)) EmptyString))).

(** What [time.layoutMilliZ] prints after the seconds for [k] milliseconds:
    the fraction, if any, and the Z. *)
Definition fracZ (k : Z) : string :=
  time.formatNano (k * 1000000) 3 true ++ "Z".

(** What is to be checked of the parser on [fracZ k]. *)
Definition fracOk (k : Z) : bool :=
  let v := fracZ k in
  if k =? 0 then String.eqb v "Z"
  else
    (2 <=? strLen v) && time.startsWith v "." && time.isDigit v 1 &&
    (let n := (2 + time.digitRun (strDrop 2 v))%nat in
     match time.parseNanoseconds v n with
     | (nsec, None, false) => nsec =? k * 1000000
     | _ => false
     end && String.eqb (strDrop n v) "Z").

(** What [time.layoutMilliZ] prints for a date, a clock and [k]
    milliseconds. *)
Definition rendered (Y M D h mi s k : Z) : string :=
  four Y ++ String "-" (two M ++ String "-" (two D ++ String "T"
    (two h ++ String ":" (two mi ++ String ":" (two s ++ fracZ k))))).

(** ** A client with fixed answers

    A client that gives the same answer to every [Get], to every
    [CreateOrUpdate] and to every [Delete], over a service without state, to
    run the lifecycle functions on one chosen answer. *)
Module stub.

Definition client
    (get createOrUpdate : automation.Variable_ * option error)
    (delete : autorest.Response * option error)
  : automation.VariableClient unit :=
  {| automation.Get := fun _ _ _ w => (get, w);
     automation.CreateOrUpdate := fun _ _ _ _ w => (createOrUpdate, w);
     automation.Delete := fun _ _ _ w => (delete, w) |}.

(** A record found, with identifier [id], flag [encrypted] and value
    [value]. *)
Definition found (id : option string) (encrypted : option bool)
    (value : option string) : automation.Variable_ * option error :=
  ({| automation.Response := memory.status 200;
      automation.ID := id;
      automation.Name := Some "v1";
      automation.Properties := Some
        {| automation.Value := value;
           automation.IsEncrypted := encrypted;
           automation.Description := Some "a date" |} |}, None).

(** A record found that has no properties. *)
Definition bare : automation.Variable_ * option error :=
  ({| automation.Response := memory.status 200;
      automation.ID := Some (memory.canonicalId "rg" "acct" "v1");
      automation.Name := Some "v1";
      automation.Properties := None |}, None).

(** The answer of status [code] with an error. *)
Definition failure (code : Z) : automation.Variable_ * option error :=
  ({| automation.Response := memory.status code; automation.ID := None;
      automation.Name := None; automation.Properties := None |},
   Some (ExternalError "StatusCode")).

Definition deleted (code : Z) (err : option error)
  : autorest.Response * option error :=
  (memory.status code, err).

(** A decoder that returns a string, whatever the resource. *)
Definition decodeString (resource : string) (input : option string)
  : error + any :=
  inr (VString "text").

End stub.

(** ** States of the examples *)

(** The data of the variable of the examples, not yet created, with the
    value [v], and a service that holds nothing. *)
Definition fresh (v : string) : Env schema.ResourceData memory.World :=
  memory.start (memory.variable "" v false) ∅.

(** The same data over a client with fixed answers. *)
Definition plain (id v : string) : Env schema.ResourceData unit :=
  mkEnv (memory.variable id v false) tt [].

(** The state after the variable was created in the empty service, with the
    import guard on. *)
Definition created : Env schema.ResourceData memory.World :=
  snd (resourceArmAutomationDatetimeVariableCreateUpdate
         memory.client true memory.parseId decodeVariableValue
         (fresh "2023-01-02T15:04:05Z")).

(** The state after that variable was deleted again. *)
Definition deleted : Env schema.ResourceData memory.World :=
  snd (resourceArmAutomationDatetimeVariableDelete
         memory.client memory.parseId created).

(** The resources of a state with two integer variables and a resource
    group, as a map and in an order of the loop. *)
Definition intVariable (name : string) : terraform.ResourceState :=
  {| terraform.Type_ := "azurerm_automation_int_variable";
     terraform.Primary := Some
       {| terraform.Attributes :=
            {[ "name" := name; "resource_group_name" := "rg";
               "automation_account_name" := "acct" ]} |} |}.

Definition resourceGroup : terraform.ResourceState :=
  {| terraform.Type_ := "azurerm_resource_group";
     terraform.Primary := Some {| terraform.Attributes := ∅ |} |}.

Definition threeResources : list (string * terraform.ResourceState) :=
  [("azurerm_resource_group.test", resourceGroup);
   ("azurerm_automation_int_variable.a", intVariable "a");
   ("azurerm_automation_int_variable.b", intVariable "b")].

Definition oneResource : gmap string terraform.ResourceState :=
  {[ "azurerm_automation_int_variable.test" := intVariable "v1" ]}.

(** ** Data and parameters of the lifecycle functions *)

(** The data after the fields that do not depend on the properties were
    set. *)
Definition afterKeys (d : schema.ResourceData) (id : ResourceID)
    (resp : automation.Variable_) : schema.ResourceData :=
  schema.set_automation_account_name (index (Path id) "automationAccounts")
    (schema.set_resource_group_name (ResourceGroup id)
       (schema.set_name (orZero (automation.Name resp)) d)).

(** The data after description and encrypted flag were set as well. *)
Definition afterProperties (d : schema.ResourceData) (id : ResourceID)
    (resp : automation.Variable_) (p : automation.VariableProperties)
  : schema.ResourceData :=
  schema.set_encrypted (orFalse (automation.IsEncrypted p))
    (schema.set_description (orZero (automation.Description p))
       (afterKeys d id resp)).

(** The parameters create-or-update sends for the data [d] and the parsed
    time [vTime]. *)
Definition parametersOf (d : schema.ResourceData) (vTime : time.Time)
  : automation.VariableCreateOrUpdateParameters :=
  {| automation.cu_Name := Some (schema.name d);
     automation.cu_Properties := Some
       {| automation.cu_Value := Some (encodedValue vTime);
          automation.cu_Description := Some (schema.description d);
          automation.cu_IsEncrypted := Some (schema.encrypted d) |} |}.


(** ** Inputs of the examples *)

(** The identifier of the variable of the examples, and what
    [memory.parseId] makes of it. *)
Definition theId : string := memory.canonicalId "rg" "acct" "v1".

Definition theResourceID : ResourceID :=
  {| SubscriptionID := "sub"; ResourceGroup := "rg";
     Provider := "Microsoft.Automation";
     Path := {[ "automationAccounts" := "acct"; "variables" := "v1" ]} |}.

(** The record the client with fixed answers finds in the examples of the
    read: not encrypted, with the encoded value of the epoch. *)
Definition epochRecord : automation.Variable_ * option error :=
  stub.found (Some theId) (Some false) (Some (dateToken 0)).

(** A client that finds [epochRecord], writes and deletes without error. *)
Definition finder : automation.VariableClient unit :=
  stub.client epochRecord epochRecord (stub.deleted 200 None).

(** A client all of whose calls fail with status [code]. *)
Definition failing (code : Z) : automation.VariableClient unit :=
  stub.client (stub.failure code) (stub.failure code)
              (stub.deleted code (Some (ExternalError "StatusCode"))).

(** A client that writes without error and whose [Get] fails with status
    [code]. *)
Definition blind (code : Z) : automation.VariableClient unit :=
  stub.client (stub.failure code) epochRecord (stub.deleted 200 None).

(** A timestamp with nanoseconds and a zone, and the time it denotes. *)
Definition sampleValue : string := "2023-01-02T15:04:05.123456789+05:30".
Definition sampleTime : time.Time := time.mkTime 1672652045 123456789 19800.

(** * Properties *)

(** ** Go's [time]: dates, printing and parsing *)

Section TimeFacts.

Import time.

Lemma uint64_small z : 0 <= z < 18446744073709551616 -> uint64 z = z.
Proof. intros H. unfold uint64. change (2 ^ 64) with 18446744073709551616. apply Z.mod_small. exact H. Qed.

Lemma int64_small z : -9223372036854775808 <= z < 9223372036854775808 -> int64 z = z.
Proof.
  intros H. unfold int64. change (2 ^ 64) with 18446744073709551616.
  change (2 ^ 63) with 9223372036854775808.
  rewrite Z.mod_small; lia.
Qed.

Lemma int64_add a b : int64 (int64 a + b) = int64 (a + b).
Proof.
  unfold int64. change (2 ^ 64) with 18446744073709551616.
  change (2 ^ 63) with 9223372036854775808.
  f_equal.
  replace ((a + 9223372036854775808) mod 18446744073709551616 - 9223372036854775808 + b + 9223372036854775808)
    with ((a + 9223372036854775808) mod 18446744073709551616 + b) by lia.
  rewrite Z.add_mod_idemp_l by lia. f_equal. lia.
Qed.

Lemma norm_id hi lo base : 0 <= lo < base -> norm hi lo base = (hi, lo).
Proof.
  intros H. unfold norm.
  destruct (Z.ltb_spec lo 0); [lia|].
  destruct (Z.geb_spec lo base); [lia|]. reflexivity.
Qed.

Lemma absYearDay_spec a :
  unixToAbsolute - 10000000000 <= a <= unixToAbsolute + 10000000000 ->
  let '(year, yday) := absYearDay a in
  1600 <= year <= 2400 /\ 0 <= yday /\
  yday < (if isLeap year then 366 else 365) /\
  daysSinceEpoch year + yday = a / secondsPerDay.
Proof.
  unfold unixToAbsolute. intros Ha.
  unfold absYearDay.
  change secondsPerDay with 86400. change daysPer400Years with 146097.
  change daysPer100Years with 36524. change daysPer4Years with 1461.
  change absoluteZeroYear with (-292277022399).
  rewrite !Z.shiftr_div_pow2 by lia. change (2 ^ 2) with 4.
  remember (a / 86400) as d0 eqn:E0.
  remember (d0 / 146097) as n400 eqn:E400.
  remember (d0 - 146097 * n400) as d1 eqn:E1.
  remember (d1 / 36524) as n100 eqn:E100.
  remember (n100 - n100 / 4) as n100' eqn:E100'.
  remember (d1 - 36524 * n100') as d2 eqn:E2.
  remember (d2 / 1461) as n4 eqn:E4.
  remember (d2 - 1461 * n4) as d3 eqn:E3.
  remember (d3 / 365) as n1 eqn:E1y.
  remember (n1 - n1 / 4) as n1' eqn:E1y'.
  cbv zeta.
  remember (400 * n400 + 100 * n100' + 4 * n4 + n1') as y eqn:Ey.
  assert (Hd0 : 106751990957353 <= d0 <= 106751991188834) by (subst d0; Z.div_mod_to_equations; lia).
  assert (Hd1 : 0 <= d1 < 146097) by (subst d1 n400; Z.div_mod_to_equations; lia).
  assert (Hn100 : 0 <= n100 <= 4 /\ (n100 = 4 -> d1 = 146096)) by (subst n100; Z.div_mod_to_equations; lia).
  assert (Hn100' : n100' = if n100 =? 4 then 3 else n100).
  { subst n100'. destruct (Z.eqb_spec n100 4); Z.div_mod_to_equations; lia. }
  assert (Hd2 : 0 <= d2 <= 36524 /\ (d2 = 36524 -> n100' = 3)).
  { subst d2. rewrite Hn100'. destruct (Z.eqb_spec n100 4); subst n100; Z.div_mod_to_equations; lia. }
  assert (Hn4 : 0 <= n4 <= 24) by (subst n4; Z.div_mod_to_equations; lia).
  assert (Hd3 : 0 <= d3 <= 1460 /\ (d3 = 1460 -> n4 = 24 -> d2 = 36524)).
  { subst d3 n4; Z.div_mod_to_equations; lia. }
  assert (Hn1 : 0 <= n1 <= 4 /\ (n1 = 4 -> d3 = 1460)) by (subst n1; Z.div_mod_to_equations; lia).
  assert (Hn1' : n1' = if n1 =? 4 then 3 else n1).
  { subst n1'. destruct (Z.eqb_spec n1 4); Z.div_mod_to_equations; lia. }
  assert (Hn1'r : 0 <= n1' <= 3) by (rewrite Hn1'; destruct (Z.eqb_spec n1 4); lia).
  assert (Hn100'r : 0 <= n100' <= 3) by (rewrite Hn100'; destruct (Z.eqb_spec n100 4); lia).
  assert (Hy400 : 730692560 <= n400 <= 730692561) by (subst n400; Z.div_mod_to_equations; lia).
  assert (Hyd : 0 <= d3 - 365 * n1' <= 365 /\ (d3 - 365 * n1' = 365 -> n1' = 3 /\ d3 = 1460)).
  { rewrite Hn1'. destruct (Z.eqb_spec n1 4); subst n1; Z.div_mod_to_equations; lia. }
  rewrite (int64_small y) by lia.
  rewrite (int64_small (y + _)) by lia.
  assert (Hdse : daysSinceEpoch (y + -292277022399) = 146097 * n400 + 36524 * n100' + 1461 * n4 + 365 * n1').
  { unfold daysSinceEpoch.
    change daysPer400Years with 146097.
    change daysPer100Years with 36524. change daysPer4Years with 1461.
    change absoluteZeroYear with (-292277022399).
    replace (y + -292277022399 - -292277022399) with y by lia.
    rewrite uint64_small by lia. cbv zeta.
    assert (y / 400 = n400) as -> by (Z.div_mod_to_equations; lia).
    replace (y - 400 * n400) with (100 * n100' + 4 * n4 + n1') by lia.
    assert ((100 * n100' + 4 * n4 + n1') / 100 = n100') as -> by (Z.div_mod_to_equations; lia).
    replace (100 * n100' + 4 * n4 + n1' - 100 * n100') with (4 * n4 + n1') by lia.
    assert ((4 * n4 + n1') / 4 = n4) as -> by (Z.div_mod_to_equations; lia).
    lia. }
  assert (Hleap : isLeap (y + -292277022399) = (n1' =? 3) && (negb (n4 =? 24) || (n100' =? 3))).
  { unfold isLeap. rewrite !Z.rem_mod_nonneg by lia.
    assert ((y + -292277022399) mod 4 = (n1' + 1) mod 4) as -> by (Z.div_mod_to_equations; lia).
    assert ((y + -292277022399) mod 100 = (4 * n4 + n1' + 1) mod 100) as -> by (Z.div_mod_to_equations; lia).
    assert ((y + -292277022399) mod 400 = (100 * n100' + 4 * n4 + n1' + 1) mod 400) as -> by (Z.div_mod_to_equations; lia).
    destruct (Z.eqb_spec n1' 3) as [H3|H3].
    - subst n1'. rewrite H3. change ((3 + 1) mod 4 =? 0) with true. simpl andb.
      destruct (Z.eqb_spec n4 24) as [H24|H24].
      + rewrite H24. change ((4 * 24 + 3 + 1) mod 100 =? 0) with true. simpl.
        destruct (Z.eqb_spec n100' 3) as [H100|H100].
        * rewrite H100. reflexivity.
        * destruct (Z.eqb_spec ((100 * n100' + 4 * 24 + 3 + 1) mod 400) 0); [|reflexivity].
          exfalso. Z.div_mod_to_equations; lia.
      + destruct (Z.eqb_spec ((4 * n4 + 3 + 1) mod 100) 0); [|reflexivity].
        exfalso. Z.div_mod_to_equations; lia.
    - destruct (Z.eqb_spec ((n1' + 1) mod 4) 0); [|reflexivity].
      exfalso. Z.div_mod_to_equations; lia. }
  rewrite Hleap, Hdse.
  split; [lia|]. split; [lia|]. split; [|lia].
  destruct (Z.eqb_spec n1' 3) as [H3|H3]; simpl.
  - destruct (Z.eqb_spec n4 24) as [H24|H24]; simpl; [|lia].
    destruct (Z.eqb_spec n100' 3) as [H100|H100]; simpl; [lia|].
    destruct Hd2 as [_ Hd2]. destruct Hd3 as [_ Hd3]. lia.
  - lia.
Qed.

Lemma allFrom_spec P n : forall z, allFrom P n z = true ->
  forall k, z <= k < z + Z.of_nat n -> P k = true.
Proof.
  induction n as [|n IH]; intros z H k Hk; [lia|].
  simpl in H. apply andb_prop in H. destruct H as [Hz Hn].
  destruct (Z.eq_dec k z) as [->|Hne]; [exact Hz|].
  apply (IH (z + 1) Hn). lia.
Qed.

Lemma monthDay_spec (leap : bool) yday :
  0 <= yday < (if leap then 366 else 365) ->
  let '(m, d) := monthDay leap yday in
  1 <= m <= 12 /\ 1 <= d /\
  d <= (if (m =? 2) && leap then 29 else daysBefore m - daysBefore (m - 1)) /\
  daysBefore (m - 1) + (if leap && (m >=? 3) then 1 else 0) + (d - 1) = yday.
Proof.
  intros H.
  assert (monthDayOk leap yday = true) as Hok.
  { destruct leap.
    - apply (allFrom_spec (monthDayOk true) 366 0); [vm_compute; reflexivity | lia].
    - apply (allFrom_spec (monthDayOk false) 365 0); [vm_compute; reflexivity | lia]. }
  unfold monthDayOk in Hok. destruct (monthDay leap yday) as [m d].
  repeat (apply andb_prop in Hok; destruct Hok as [Hok ?]).
  repeat match goal with
         | H : Z.leb _ _ = true |- _ => apply Z.leb_le in H
         | H : Z.eqb _ _ = true |- _ => apply Z.eqb_eq in H
         end.
  lia.
Qed.

Lemma daysSinceEpoch_bounds Y :
  1600 <= Y <= 2400 ->
  106751990900000 <= daysSinceEpoch Y <= 106751991300000.
Proof.
  intros HY. unfold daysSinceEpoch.
  change daysPer400Years with 146097.
  change daysPer100Years with 36524. change daysPer4Years with 1461.
  change absoluteZeroYear with (-292277022399).
  rewrite uint64_small by lia. cbv zeta.
  Z.div_mod_to_equations. lia.
Qed.

Lemma daysBefore_bounds m : 0 <= m <= 11 -> 0 <= daysBefore m <= 334.
Proof.
  intros H.
  assert (m = 0 \/ m = 1 \/ m = 2 \/ m = 3 \/ m = 4 \/ m = 5 \/ m = 6 \/ m = 7
          \/ m = 8 \/ m = 9 \/ m = 10 \/ m = 11) as Hm by lia.
  repeat (destruct Hm as [-> | Hm]; [simpl; lia|]). subst. simpl. lia.
Qed.

Lemma Date_in_range Y M D h mi s ns :
  1600 <= Y <= 2400 -> 1 <= M <= 12 -> 1 <= D <= 31 ->
  0 <= h < 24 -> 0 <= mi < 60 -> 0 <= s < 60 -> 0 <= ns < 1000000000 ->
  Date Y M D h mi s ns =
    mkTime ((daysSinceEpoch Y + daysBefore (M - 1)
             + (if isLeap Y && (M >=? 3) then 1 else 0) + (D - 1)) * 86400
            + (h * 3600 + mi * 60 + s) - unixToAbsolute) ns 0.
Proof.
  intros HY HM HD Hh Hmi Hs Hns. unfold Date.
  rewrite (norm_id Y (M - 1) 12) by lia.
  rewrite (norm_id s ns 1000000000) by lia.
  rewrite (norm_id mi s 60) by lia.
  rewrite (norm_id h mi 60) by lia.
  rewrite (norm_id D h 24) by lia.
  cbv zeta. replace (M - 1 + 1) with M by lia.
  pose proof (daysSinceEpoch_bounds Y HY) as HB.
  pose proof (daysBefore_bounds (M - 1) ltac:(lia)) as HBm.
  change secondsPerDay with 86400. change secondsPerHour with 3600.
  change secondsPerMinute with 60.
  change (absoluteToInternal + internalToUnix) with (- unixToAbsolute).
  unfold unixToAbsolute.
  set (leapAdj := if isLeap Y && (M >=? 3) then 1 else 0).
  assert (0 <= leapAdj <= 1) as HL by (subst leapAdj; destruct (isLeap Y && (M >=? 3)); lia).
  replace (if isLeap Y && (M >=? 3)
           then daysSinceEpoch Y + daysBefore (M - 1) + 1
           else daysSinceEpoch Y + daysBefore (M - 1))
    with (daysSinceEpoch Y + daysBefore (M - 1) + leapAdj)
    by (subst leapAdj; destruct (isLeap Y && (M >=? 3)); lia).
  rewrite (uint64_small (_ + (D - 1))) by lia.
  rewrite (uint64_small (_ * 86400)) by lia.
  rewrite (uint64_small (_ + (h * 3600 + mi * 60 + s))) by lia.
  rewrite int64_add. rewrite int64_small by lia.
  f_equal; lia.
Qed.

Lemma daysIn_eq M Y :
  daysIn M Y = if (M =? 2) && isLeap Y then 29 else daysBefore M - daysBefore (M - 1).
Proof. reflexivity. Qed.

Lemma Date_absDate a ns :
  unixToAbsolute - 10000000000 <= a <= unixToAbsolute + 10000000000 ->
  0 <= ns < 1000000000 ->
  let '(Y, M, D) := absDate a in
  let '(h, mi, s) := absClock a in
  1600 <= Y <= 2400 /\ 1 <= M <= 12 /\ 1 <= D /\ D <= daysIn M Y /\
  0 <= h < 24 /\ 0 <= mi < 60 /\ 0 <= s < 60 /\
  Date Y M D h mi s ns = mkTime (a - unixToAbsolute) ns 0.
Proof.
  intros Ha Hns. unfold absDate.
  pose proof (absYearDay_spec a Ha) as HY.
  destruct (absYearDay a) as [Y yday]. destruct HY as (HY & Hy0 & Hy1 & Hd).
  pose proof (monthDay_spec (isLeap Y) yday ltac:(lia)) as HM.
  destruct (monthDay (isLeap Y) yday) as [M D]. destruct HM as (HM & HD1 & HD2 & Hyd).
  unfold absClock.
  change secondsPerDay with 86400 in *. change secondsPerHour with 3600.
  change secondsPerMinute with 60.
  assert (Ha0 : 0 <= a) by (unfold unixToAbsolute in Ha; lia).
  set (r := a mod 86400). set (h := r / 3600).
  set (mi := (r - h * 3600) / 60).
  assert (Hr : 0 <= r < 86400) by (subst r; apply Z.mod_pos_bound; lia).
  assert (Hh : 0 <= h < 24) by (subst h; Z.div_mod_to_equations; lia).
  assert (Hmi : 0 <= mi < 60 /\ 0 <= r - h * 3600 - mi * 60 < 60)
    by (subst mi h; Z.div_mod_to_equations; lia).
  assert (HD31 : D <= 31).
  { assert (M = 1 \/ M = 2 \/ M = 3 \/ M = 4 \/ M = 5 \/ M = 6 \/ M = 7
          \/ M = 8 \/ M = 9 \/ M = 10 \/ M = 11 \/ M = 12) as Hm by lia.
    clear Hyd.
    repeat (destruct Hm as [-> | Hm]; [destruct (isLeap Y); simpl in HD2; lia|]).
    subst. destruct (isLeap Y); simpl in HD2; lia. }
  rewrite daysIn_eq.
  repeat (split; [lia|]).
  rewrite Date_in_range by lia.
  f_equal.
  replace (daysSinceEpoch Y + daysBefore (M - 1) + (if isLeap Y && (M >=? 3) then 1 else 0) + (D - 1))
    with (a / 86400) by lia.
  pose proof (Z.div_mod a 86400 ltac:(lia)). fold r in H. lia.
Qed.

Lemma app_String c s r : String c s ++ r = String c (s ++ r).
Proof. reflexivity. Qed.

Lemma app_Empty r : "" ++ r = r.
Proof. reflexivity. Qed.

Lemma appendInt_two n : 0 <= n < 100 -> appendInt n 2 = two n.
Proof.
  intros H. apply String.eqb_eq.
  apply (allFrom_spec (fun n => String.eqb (appendInt n 2) (two n)) 100 0);
    [vm_compute; reflexivity | lia].
Qed.

Lemma appendInt_four n : 1600 <= n <= 2400 -> appendInt n 4 = four n.
Proof.
  intros H. apply String.eqb_eq.
  apply (allFrom_spec (fun n => String.eqb (appendInt n 4) (four n)) 801 1600);
    [vm_compute; reflexivity | lia].
Qed.

Ltac digit_cases a :=
  let H := fresh in
  assert (a = 0 \/ a = 1 \/ a = 2 \/ a = 3 \/ a = 4 \/ a = 5 \/ a = 6 \/ a = 7
          \/ a = 8 \/ a = 9) as H by lia;
  repeat (destruct H as [-> | H]); [..| subst a].

Lemma isDigitByte_digitChar a : 0 <= a <= 9 -> isDigitByte (digitChar a) = true.
Proof. intros Ha. digit_cases a; reflexivity. Qed.

Lemma byteVal_digitChar a : 0 <= a <= 9 -> byteVal (digitChar a) = 48 + a.
Proof. intros Ha. digit_cases a; reflexivity. Qed.

Lemma digitChar_not a c :
  0 <= a <= 9 -> isDigitByte c = false -> Ascii.eqb (digitChar a) c = false.
Proof.
  intros Ha Hc. destruct (Ascii.eqb_spec (digitChar a) c) as [<-|]; [|reflexivity].
  rewrite isDigitByte_digitChar in Hc by lia. discriminate.
Qed.

Lemma getnum_digits a b rest fixed :
  0 <= a <= 9 -> 0 <= b <= 9 ->
  getnum (String (digitChar a) (String (digitChar b) rest)) fixed
  = (a * 10 + b, rest, false).
Proof.
  intros Ha Hb. unfold getnum, isDigit. cbn [String.get].
  rewrite !isDigitByte_digitChar by lia. simpl.
  unfold digitVal. rewrite !byteVal_digitChar by lia.
  replace (48 + a - 48) with a by lia. replace (48 + b - 48) with b by lia.
  reflexivity.
Qed.

Lemma getnum_two n rest fixed :
  0 <= n < 100 -> getnum (two n ++ rest) fixed = (n, rest, false).
Proof.
  intros Hn. unfold two. rewrite !app_String, app_Empty.
  rewrite getnum_digits by (Z.div_mod_to_equations; lia).
  replace (n / 10 * 10 + n mod 10) with n by (Z.div_mod_to_equations; lia).
  reflexivity.
Qed.

Lemma leadingInt_String c r x :
  leadingInt (String c r) x =
    if negb (isDigitByte c) then Some (x, String c r)
    else if x >? (2 ^ 63 - 1) ÷ 10 then None
    else
      let x' := int64 (x * 10 + byteVal c - 48) in
      if x' <? 0 then None else leadingInt r x'.
Proof. reflexivity. Qed.

Lemma leadingInt_digit a r x :
  0 <= a <= 9 -> 0 <= x <= 1000000 ->
  leadingInt (String (digitChar a) r) x = leadingInt r (x * 10 + a).
Proof.
  intros Ha Hx. rewrite leadingInt_String.
  rewrite isDigitByte_digitChar by lia. simpl negb. cbv iota zeta.
  change ((2 ^ 63 - 1) ÷ 10) with 922337203685477580.
  destruct (Z.gtb_spec x 922337203685477580); [lia|].
  rewrite byteVal_digitChar by lia.
  rewrite int64_small by lia.
  destruct (Z.ltb_spec (x * 10 + (48 + a) - 48) 0); [lia|].
  f_equal. lia.
Qed.

Lemma leadingInt_Empty x : leadingInt "" x = Some (x, "").
Proof. reflexivity. Qed.

Lemma atoi_four n : 0 <= n <= 9999 -> atoi (four n) = Some n.
Proof.
  intros Hn. unfold atoi, four.
  assert (forall r c, isDigitByte c = false ->
            startsWith (String (digitChar (n / 1000)) r) c = false) as Hs.
  { intros r c Hc. unfold startsWith. apply digitChar_not; [Z.div_mod_to_equations; lia | exact Hc]. }
  rewrite !Hs by reflexivity.
  cbv beta iota zeta. unfold orb.
  assert (0 <= n / 1000 <= 9 /\ 0 <= n / 100 mod 10 <= 9 /\ 0 <= n / 10 mod 10 <= 9 /\ 0 <= n mod 10 <= 9) as (H1 & H2 & H3 & H4) by (Z.div_mod_to_equations; lia).
  rewrite (leadingInt_digit _ _ 0) by lia.
  rewrite (leadingInt_digit _ _ (0 * 10 + n / 1000)) by lia.
  rewrite (leadingInt_digit _ _ ((0 * 10 + n / 1000) * 10 + n / 100 mod 10)) by lia.
  rewrite (leadingInt_digit _ _ (((0 * 10 + n / 1000) * 10 + n / 100 mod 10) * 10 + n / 10 mod 10)) by lia.
  rewrite leadingInt_Empty. f_equal. Z.div_mod_to_equations. lia.
Qed.

Lemma parseYear rest fs value n :
  0 <= n <= 9999 ->
  parseChunk stdLongYear rest fs (four n ++ value) = inr (setYear fs n, value).
Proof.
  intros Hn. unfold parseChunk.
  assert ((strLen (four n ++ value) <? 4) = false) as ->.
  { unfold strLen, four. rewrite !app_String. cbn [String.length].
    apply Z.ltb_ge. lia. }
  assert (isDigit (four n ++ value) 0 = true) as ->.
  { unfold isDigit, four. rewrite app_String. cbn [String.get].
    apply isDigitByte_digitChar. Z.div_mod_to_equations; lia. }
  unfold orb, negb. cbv iota.
  change (strTake 4 (four n ++ value)) with (four n).
  rewrite atoi_four by lia. reflexivity.
Qed.

Lemma fracOk_all k : 0 <= k < 1000 -> fracOk k = true.
Proof.
  intros H. apply (allFrom_spec fracOk 1000 0); [vm_compute; reflexivity | lia].
Qed.

Lemma fracZ_zero : fracZ 0 = "Z".
Proof. vm_compute. reflexivity. Qed.

Lemma parseSecond fs s k :
  0 <= s < 60 -> 0 <= k < 1000 ->
  parseChunk stdZeroSecond [stdISO8601ColonTZ] fs (two s ++ fracZ k)
  = inr (setNsec (setSec fs s) (if k =? 0 then f_nsec fs else k * 1000000), "Z").
Proof.
  intros Hs Hk. unfold parseChunk.
  rewrite getnum_two by lia.
  destruct (Z.ltb_spec s 0); [lia|]. destruct (Z.leb_spec 60 s); [lia|].
  unfold orb. cbv iota.
  pose proof (fracOk_all k Hk) as Hok. unfold fracOk in Hok. cbv zeta in Hok.
  destruct (Z.eqb_spec k 0) as [->|Hk0].
  - rewrite fracZ_zero. reflexivity.
  - apply andb_prop in Hok. destruct Hok as [Hshape Hval].
    apply andb_prop in Hshape. destruct Hshape as [Hshape Hdig].
    apply andb_prop in Hshape. destruct Hshape as [Hlen Hdot].
    apply andb_prop in Hval. destruct Hval as [Hns Hrest].
    rewrite Hlen, Hdot, Hdig. unfold andb. cbv iota.
    change (isFrac (nextStd [stdISO8601ColonTZ])) with false. cbv iota zeta.
    destruct (parseNanoseconds (fracZ k) (2 + digitRun (strDrop 2 (fracZ k))))
      as [[nsec [w|]] [|]]; try discriminate.
    apply Z.eqb_eq in Hns. apply String.eqb_eq in Hrest. rewrite Hrest, Hns.
    reflexivity.
Qed.

Lemma parseLit c rest fs v :
  parseChunk (lit (String c "")) rest fs (String c v) = inr (fs, v).
Proof. unfold parseChunk, skip. rewrite Ascii.eqb_refl. reflexivity. Qed.

Lemma parseMonth rest fs v n :
  1 <= n <= 12 -> parseChunk stdZeroMonth rest fs (two n ++ v) = inr (setMonth fs n, v).
Proof.
  intros H. unfold parseChunk. rewrite getnum_two by lia.
  destruct (Z.leb_spec n 0); [lia|]. destruct (Z.ltb_spec 12 n); [lia|]. reflexivity.
Qed.

Lemma parseDay rest fs v n :
  0 <= n < 100 -> parseChunk stdZeroDay rest fs (two n ++ v) = inr (setDay fs n, v).
Proof.
  intros H. unfold parseChunk. rewrite getnum_two by lia.
  destruct (Z.ltb_spec n 0); [lia|]. reflexivity.
Qed.

Lemma parseHour rest fs v n :
  0 <= n < 24 -> parseChunk stdHour rest fs (two n ++ v) = inr (setHour fs n, v).
Proof.
  intros H. unfold parseChunk. rewrite getnum_two by lia.
  destruct (Z.ltb_spec n 0); [lia|]. destruct (Z.leb_spec 24 n); [lia|]. reflexivity.
Qed.

Lemma parseMinute rest fs v n :
  0 <= n < 60 -> parseChunk stdZeroMinute rest fs (two n ++ v) = inr (setMin fs n, v).
Proof.
  intros H. unfold parseChunk. rewrite getnum_two by lia.
  destruct (Z.ltb_spec n 0); [lia|]. destruct (Z.leb_spec 60 n); [lia|]. reflexivity.
Qed.

Lemma parseZ rest fs : parseChunk stdISO8601ColonTZ rest fs "Z" = inr (setUTC fs, "").
Proof. reflexivity. Qed.

Lemma parseLoop_rendered Y M D h mi s k :
  0 <= Y <= 9999 -> 1 <= M <= 12 -> 0 <= D < 100 ->
  0 <= h < 24 -> 0 <= mi < 60 -> 0 <= s < 60 -> 0 <= k < 1000 ->
  parseLoop RFC3339 fields0 (rendered Y M D h mi s k)
  = inr (mkFields Y M D h mi s (k * 1000000) true (-1), "").
Proof.
  intros HY HM HD Hh Hmi Hs Hk. unfold RFC3339, rendered.
  cbn [parseLoop]. rewrite parseYear by lia.
  rewrite parseLit. rewrite parseMonth by lia.
  rewrite parseLit. rewrite parseDay by lia.
  rewrite parseLit. rewrite parseHour by lia.
  rewrite parseLit. rewrite parseMinute by lia.
  rewrite parseLit. rewrite parseSecond by lia.
  rewrite parseZ.
  change (strLen "" =? 0) with true. cbv iota.
  destruct (Z.eqb_spec k 0) as [->|]; reflexivity.
Qed.

Lemma Format_rendered t Y M D h mi s k :
  absDate (abs t) = (Y, M, D) -> absClock (abs t) = (h, mi, s) ->
  nsec t = k * 1000000 ->
  1600 <= Y <= 2400 -> 0 <= M < 100 -> 0 <= D < 100 ->
  0 <= h < 100 -> 0 <= mi < 100 -> 0 <= s < 100 ->
  Format t layoutMilliZ = rendered Y M D h mi s k.
Proof.
  intros HD HC Hn HY HM HDd Hh Hmi Hs.
  unfold Format, layoutMilliZ, fold_right, formatChunk.
  rewrite HD, HC, Hn. cbv beta iota.
  rewrite appendInt_four by lia. rewrite !appendInt_two by lia.
  reflexivity.
Qed.

Lemma abs_timeOfMillis ms :
  -9223372036854 <= ms <= 9223372036854 ->
  abs (timeOfMillis ms) = ms / 1000 + unixToAbsolute.
Proof.
  intros H. unfold abs, timeOfMillis. cbn [sec offset].
  change (unixToInternal + internalToAbsolute) with unixToAbsolute.
  unfold unixToAbsolute. rewrite uint64_small; [lia|].
  Z.div_mod_to_equations. lia.
Qed.

Lemma Parse_Format_millis ms :
  -9223372036854 <= ms <= 9223372036854 ->
  Parse RFC3339 (Format (timeOfMillis ms) layoutMilliZ) = inr (timeOfMillis ms).
Proof.
  intros Hms.
  pose proof (abs_timeOfMillis ms Hms) as Ha.
  set (k := ms mod 1000).
  assert (Hk : 0 <= k < 1000) by (subst k; apply Z.mod_pos_bound; lia).
  pose proof (Date_absDate (ms / 1000 + unixToAbsolute) (k * 1000000)
                ltac:(unfold unixToAbsolute; Z.div_mod_to_equations; lia) ltac:(lia)) as HD.
  rewrite <- Ha in HD.
  destruct (absDate (abs (timeOfMillis ms))) as [[Y M] D] eqn:EDate.
  destruct (absClock (abs (timeOfMillis ms))) as [[h mi] s] eqn:EClock.
  destruct HD as (HY & HM & HD1 & HD2 & Hh & Hmi & Hs & HDate).
  assert (HD31 : D < 100).
  { assert (daysIn M Y <= 31); [|lia]. rewrite daysIn_eq.
    assert (M = 1 \/ M = 2 \/ M = 3 \/ M = 4 \/ M = 5 \/ M = 6 \/ M = 7
          \/ M = 8 \/ M = 9 \/ M = 10 \/ M = 11 \/ M = 12) as Hm by lia.
    repeat (destruct Hm as [-> | Hm]; [destruct (isLeap Y); cbv; discriminate|]).
    subst. destruct (isLeap Y); cbv; discriminate. }
  rewrite (Format_rendered _ Y M D h mi s k EDate EClock eq_refl) by lia.
  unfold Parse. rewrite parseLoop_rendered by lia.
  cbn [f_day f_month f_year f_hour f_min f_sec f_nsec f_z f_zoneOffset].
  destruct (Z.ltb_spec D 1); [lia|]. destruct (Z.gtb_spec D (daysIn M Y)); [lia|].
  unfold orb. cbv iota.
  rewrite HDate. rewrite Ha. unfold timeOfMillis.
  replace (ms / 1000 + unixToAbsolute - unixToAbsolute) with (ms / 1000) by lia.
  reflexivity.
Qed.

End TimeFacts.

(** ** The decoder *)

Lemma strLen_app a b : String.length (a ++ b) = (String.length a + String.length b)%nat.
Proof. induction a as [|c a IH]; [reflexivity|]. rewrite app_String. cbn [String.length]. rewrite IH. reflexivity. Qed.

Lemma strDrop_app a b : strDrop (String.length a) (a ++ b) = b.
Proof. induction a as [|c a IH]; [reflexivity|]. rewrite app_String. exact IH. Qed.

Lemma strTake_app a b : strTake (String.length a) (a ++ b) = a.
Proof. induction a as [|c a IH]; [reflexivity|]. rewrite app_String. cbn [String.length strTake]. rewrite IH. reflexivity. Qed.

Lemma stripSuffix_app suffix a : stripSuffix suffix (a ++ suffix) = Some a.
Proof.
  unfold stripSuffix. rewrite strLen_app.
  replace (String.length a + String.length suffix - String.length suffix)%nat
    with (String.length a) by lia.
  rewrite strDrop_app, strTake_app, String.eqb_refl. reflexivity.
Qed.

Lemma int_of_string_formatInt z :
  NilZero.int_of_string (formatInt z) = Some (Z.to_int z).
Proof.
  unfold formatInt. apply NilZero.isi.
  - destruct z; cbn; try discriminate. intros [= H]. exact (Unsigned.to_uint_nonnil _ H).
  - destruct z; cbn; try discriminate. intros [= H]. exact (Unsigned.to_uint_nonnil _ H).
Qed.

Lemma parseDateToken_dateToken ms : parseDateToken (dateToken ms) = Some ms.
Proof.
  unfold parseDateToken, dateToken.
  change (time.skip (dquote ++ backslash ++ "/Date(" ++ formatInt ms ++ ")" ++ backslash ++ "/" ++ dquote)
            (dquote ++ backslash ++ "/Date("))
    with (Some (formatInt ms ++ (")" ++ backslash ++ "/" ++ dquote))).
  cbv beta iota.
  rewrite stripSuffix_app, int_of_string_formatInt. cbn [option_map].
  rewrite DecimalZ.of_to. reflexivity.
Qed.

Lemma decode_encoded resource ms :
  decodeVariableValue resource (Some (dateToken ms)) = inr (VTime (timeOfMillis ms)).
Proof. unfold decodeVariableValue. rewrite parseDateToken_dateToken. reflexivity. Qed.

Lemma UnixNano_instant t :
  - 2 ^ 63 <= time.instant t < 2 ^ 63 -> time.UnixNano t = time.instant t.
Proof.
  intros H. unfold time.UnixNano. rewrite int64_add. apply int64_small.
  unfold time.instant in *. change (2 ^ 63) with 9223372036854775808 in H. lia.
Qed.

Lemma instant_timeOfMillis ms : time.instant (timeOfMillis ms) = ms * 1000000.
Proof.
  unfold time.instant, timeOfMillis. cbn [time.sec time.nsec].
  Z.div_mod_to_equations. lia.
Qed.

Section Properties.

Context {World : Type}.
Variable client : automation.VariableClient World.
Variable parseAzureResourceID : string -> error + ResourceID.
Variable ParseAzureRmAutomationVariableValue :
  string -> option string -> error + any.

Abbreviation CreateUpdate req :=
  (resourceArmAutomationDatetimeVariableCreateUpdate
     client req parseAzureResourceID ParseAzureRmAutomationVariableValue).
Abbreviation Read :=
  (resourceArmAutomationDatetimeVariableRead
     client parseAzureResourceID ParseAzureRmAutomationVariableValue).
Abbreviation Delete :=
  (resourceArmAutomationDatetimeVariableDelete client parseAzureResourceID).

Abbreviation rg s := (schema.resource_group_name (data s)).
Abbreviation acct s := (schema.automation_account_name (data s)).
Abbreviation nm s := (schema.name (data s)).

Ltac run :=
  unfold resourceArmAutomationDatetimeVariableCreateUpdate,
         resourceArmAutomationDatetimeVariableRead,
         resourceArmAutomationDatetimeVariableDelete,
         checkExisting, bind, ret, fail, panic, deref, dGet, dSet,
         clientGet, clientCreateOrUpdate, clientDelete; simpl.

(** What the check of lines 71 to 81 leaves behind: the data as they were,
    and at most one call, a [Get]. *)
Lemma checkExisting_effect req (s : Env schema.ResourceData World) n r a :
  let out := checkExisting client req n r a s in
  data (snd out) = data s /\
  calls (snd out) = (calls s ++ (if req then [CallGet r a n] else []))%list /\
  remote (snd out) =
    (if req then snd (automation.Get client r a n (remote s)) else remote s).
Proof.
  run. destruct req; simpl.
  - destruct (automation.Get client r a n (remote s)) as [[resp err] w].
    destruct err as [e|]; simpl;
      destruct (utils.ResponseWasNotFound (automation.Response resp)); simpl;
      try destruct (automation.ID resp); simpl; auto.
  - rewrite app_nil_r. auto.
Qed.

Lemma checkExisting_noCreateOrUpdate req (s : Env schema.ResourceData World) n r a :
  noCreateOrUpdateSince s (snd (checkExisting client req n r a s)).
Proof.
  destruct (checkExisting_effect req s n r a) as (_ & Hc & _).
  eexists. split; [exact Hc|]. destruct req; reflexivity.
Qed.

(** *** The read, case by case *)

Lemma Read_found (s : Env schema.ResourceData World) id resp w' :
  parseAzureResourceID (schema.Id (data s)) = inr id ->
  automation.Get client (ResourceGroup id) (index (Path id) "automationAccounts")
    (index (Path id) "variables") (remote s) = ((resp, None), w') ->
  let calls' := (calls s ++ [CallGet (ResourceGroup id)
                   (index (Path id) "automationAccounts")
                   (index (Path id) "variables")])%list in
  Read s =
    match automation.Properties resp with
    | None => (Returned tt, mkEnv (afterKeys (data s) id resp) w' calls')
    | Some p =>
        let d := afterProperties (data s) id resp p in
        if orFalse (automation.IsEncrypted p) then (Returned tt, mkEnv d w' calls')
        else
          match ParseAzureRmAutomationVariableValue
                  "azurerm_automation_datetime_variable" (automation.Value p) with
          | inl e => (Failed e, mkEnv d w' calls')
          | inr (VTime t) =>
              (Returned tt,
               mkEnv (schema.set_value (time.Format t time.layoutMilliZ) d) w' calls')
          | inr _ => (Panicked, mkEnv d w' calls')
          end
    end.
Proof.
  intros HI HG calls'. run. rewrite HI. simpl. rewrite HG. simpl.
  destruct (automation.Properties resp) as [p|]; simpl; [|reflexivity].
  unfold afterProperties, afterKeys.
  destruct (orFalse (automation.IsEncrypted p)); simpl; [reflexivity|].
  destruct (ParseAzureRmAutomationVariableValue _ _) as [e|[]]; reflexivity.
Qed.

Lemma Read_calls (s : Env schema.ResourceData World) :
  exists l, calls (snd (Read s)) = (calls s ++ l)%list /\
            (l = [] \/ exists r a n, l = [CallGet r a n]).
Proof.
  destruct (parseAzureResourceID (schema.Id (data s))) as [e|id] eqn:HI.
  - exists []. split; [|left; reflexivity]. run. rewrite HI. simpl.
    rewrite app_nil_r. reflexivity.
  - destruct (automation.Get client (ResourceGroup id)
                (index (Path id) "automationAccounts")
                (index (Path id) "variables") (remote s)) as [[resp [e|]] w'] eqn:HG.
    + eexists. split; [|right; eauto]. run. rewrite HI. simpl. rewrite HG. simpl.
      destruct (utils.ResponseWasNotFound (automation.Response resp)); reflexivity.
    + eexists. split; [|right; eauto]. rewrite (Read_found s id resp w' HI HG).
      destruct (automation.Properties resp) as [p|]; [|reflexivity]. cbv zeta.
      destruct (orFalse (automation.IsEncrypted p)); [reflexivity|].
      destruct (ParseAzureRmAutomationVariableValue _ _) as [e|[]]; reflexivity.
Qed.

Lemma read_value_aux (s : Env schema.ResourceData World) id resp w' p t :
  parseAzureResourceID (schema.Id (data s)) = inr id ->
  automation.Get client (ResourceGroup id) (index (Path id) "automationAccounts")
    (index (Path id) "variables") (remote s) = ((resp, None), w') ->
  automation.Properties resp = Some p ->
  orFalse (automation.IsEncrypted p) = false ->
  ParseAzureRmAutomationVariableValue "azurerm_automation_datetime_variable"
    (automation.Value p) = inr (VTime t) ->
  Read s =
    (Returned tt,
     mkEnv (schema.set_value (time.Format t time.layoutMilliZ)
              (afterProperties (data s) id resp p))
           w' (calls s ++ [CallGet (ResourceGroup id)
                             (index (Path id) "automationAccounts")
                             (index (Path id) "variables")])).
Proof.
  intros HI HG HP HE HD. rewrite (Read_found s id resp w' HI HG), HP.
  cbv zeta. rewrite HE, HD. reflexivity.
Qed.

(** *** Create-or-update, after the check of the import guard *)

Lemma CreateUpdate_after_check req (s s0 : Env schema.ResourceData World) vTime :
  checkExisting client req (nm s) (rg s) (acct s) s = (Returned tt, s0) ->
  time.Parse time.RFC3339 (schema.value (data s)) = inr vTime ->
  let parameters := parametersOf (data s) vTime in
  let written := automation.CreateOrUpdate client (rg s) (acct s) (nm s)
                   parameters (remote s0) in
  let calls1 := (calls s0 ++ [CallCreateOrUpdate (rg s) (acct s) (nm s) parameters])%list in
  let fetched := automation.Get client (rg s) (acct s) (nm s) (snd written) in
  let calls2 := (calls1 ++ [CallGet (rg s) (acct s) (nm s)])%list in
  CreateUpdate req s =
    match snd (fst written) with
    | Some e => (Failed (ErrorCreating (nm s) (acct s) (rg s) e),
                 mkEnv (data s) (snd written) calls1)
    | None =>
        match snd (fst fetched) with
        | Some e => (Failed (ErrorRetrieving (nm s) (acct s) (rg s) e),
                     mkEnv (data s) (snd fetched) calls2)
        | None =>
            match automation.ID (fst (fst fetched)) with
            | None => (Failed (ErrorCannotReadID (nm s) (acct s) (rg s)),
                       mkEnv (data s) (snd fetched) calls2)
            | Some id =>
                Read (mkEnv (schema.SetId id (data s)) (snd fetched) calls2)
            end
        end
    end.
Proof.
  intros HC HP parameters written calls1 fetched calls2.
  pose proof (checkExisting_effect req s (nm s) (rg s) (acct s)) as HE.
  simpl in HE. rewrite HC in HE. simpl in HE. destruct HE as (Hd0 & _).
  unfold resourceArmAutomationDatetimeVariableCreateUpdate at 1.
  unfold bind at 1 2 3 4. unfold dGet at 1 2 3. simpl. rewrite HC.
  unfold bind at 1 2 3. unfold dGet at 1 2 3. simpl. rewrite Hd0, HP.
  unfold bind at 1, clientCreateOrUpdate. simpl.
  unfold utils.String, utils.Bool.
  change {| automation.cu_Name := Some (nm s); automation.cu_Properties := _ |}
    with parameters.
  fold written. destruct written as [[r1 [e1|]] w1] eqn:HW; simpl.
  - rewrite Hd0. reflexivity.
  - unfold bind at 1, clientGet at 1. simpl. subst fetched. simpl.
    destruct (automation.Get client (rg s) (acct s) (nm s) w1) as [[resp [e2|]] w2]; simpl.
    + rewrite Hd0. reflexivity.
    + subst calls2 calls1. rewrite Hd0.
      destruct (automation.ID resp); reflexivity.
Qed.

Lemma CreateUpdate_calls_after_check req (s s0 : Env schema.ResourceData World) vTime :
  checkExisting client req (nm s) (rg s) (acct s) s = (Returned tt, s0) ->
  time.Parse time.RFC3339 (schema.value (data s)) = inr vTime ->
  exists l, calls (snd (CreateUpdate req s)) =
    (calls s0 ++ [CallCreateOrUpdate (rg s) (acct s) (nm s) (parametersOf (data s) vTime)]
             ++ l)%list.
Proof.
  intros HC HP. rewrite (CreateUpdate_after_check req s s0 vTime HC HP). cbv zeta.
  destruct (automation.CreateOrUpdate client _ _ _ _ (remote s0)) as [[r1 [e1|]] w1]; simpl.
  - exists []. reflexivity.
  - destruct (automation.Get client (rg s) (acct s) (nm s) w1) as [[resp [e2|]] w2]; simpl.
    + eexists. rewrite <- app_assoc. reflexivity.
    + destruct (automation.ID resp) as [id|]; simpl.
      * destruct (Read_calls (mkEnv (schema.SetId id (data s)) w2
                    ((calls s0 ++ [CallCreateOrUpdate (rg s) (acct s) (nm s)
                                     (parametersOf (data s) vTime)])
                     ++ [CallGet (rg s) (acct s) (nm s)])%list)) as (l & Hl & _).
        rewrite Hl. simpl calls. eexists. rewrite <- !app_assoc. reflexivity.
      * eexists. rewrite <- app_assoc. reflexivity.
Qed.

(** X1. With the import guard on, when the probing [Get] fails and its
    response is not the not-found one, create-or-update fails with the
    checking error that carries the error of [Get]; that [Get] is its only
    call and the data are as they were. *)
Theorem create_update_probe_error (s : Env schema.ResourceData World) resp e w' :
  automation.Get client (rg s) (acct s) (nm s) (remote s) = ((resp, Some e), w') ->
  utils.ResponseWasNotFound (automation.Response resp) = false ->
  CreateUpdate true s =
    (Failed (ErrorCheckingPresence (nm s) (acct s) (rg s) e),
     mkEnv (data s) w' (calls s ++ [CallGet (rg s) (acct s) (nm s)])).
Proof.
  intros HG HN. run. rewrite HG. simpl. rewrite HN. reflexivity.
Qed.

(** X2. With the import guard on, when the response of the probing [Get] is
    the not-found one and the value parses, the next call create-or-update
    makes is [CreateOrUpdate], with the name, the description, the encrypted
    flag and the encoded value of the data. *)
Theorem create_update_probe_not_found
    (s : Env schema.ResourceData World) resp err w' vTime :
  automation.Get client (rg s) (acct s) (nm s) (remote s) = ((resp, err), w') ->
  utils.ResponseWasNotFound (automation.Response resp) = true ->
  time.Parse time.RFC3339 (schema.value (data s)) = inr vTime ->
  exists l, calls (snd (CreateUpdate true s)) =
    (calls s ++ [CallGet (rg s) (acct s) (nm s);
                 CallCreateOrUpdate (rg s) (acct s) (nm s) (parametersOf (data s) vTime)]
             ++ l)%list.
Proof.
  intros HG HN HP.
  assert (checkExisting client true (nm s) (rg s) (acct s) s =
          (Returned tt, mkEnv (data s) w' (calls s ++ [CallGet (rg s) (acct s) (nm s)]))) as HC.
  { run. rewrite HG. simpl. rewrite HN. destruct err; reflexivity. }
  destruct (CreateUpdate_calls_after_check true s _ vTime HC HP) as (l & Hl).
  exists l. rewrite Hl. simpl calls. rewrite <- app_assoc. reflexivity.
Qed.

(** X3. With the import guard off and a value that parses, create-or-update
    does not look for the variable first: its first call is
    [CreateOrUpdate], with the encoded value of the data. *)
Theorem create_update_without_guard (s : Env schema.ResourceData World) vTime :
  time.Parse time.RFC3339 (schema.value (data s)) = inr vTime ->
  exists l, calls (snd (CreateUpdate false s)) =
    (calls s ++ [CallCreateOrUpdate (rg s) (acct s) (nm s) (parametersOf (data s) vTime)]
             ++ l)%list.
Proof.
  intros HP. exact (CreateUpdate_calls_after_check false s s vTime eq_refl HP).
Qed.

(** X4. When [CreateOrUpdate] returns an error, create-or-update fails with
    the creating error that carries it; it makes no further call and leaves
    the data, the identifier included, as they were. *)
Theorem create_update_create_error
    req (s s0 : Env schema.ResourceData World) vTime r e w1 :
  checkExisting client req (nm s) (rg s) (acct s) s = (Returned tt, s0) ->
  time.Parse time.RFC3339 (schema.value (data s)) = inr vTime ->
  automation.CreateOrUpdate client (rg s) (acct s) (nm s)
    (parametersOf (data s) vTime) (remote s0) = ((r, Some e), w1) ->
  CreateUpdate req s =
    (Failed (ErrorCreating (nm s) (acct s) (rg s) e),
     mkEnv (data s) w1
       (calls s0 ++ [CallCreateOrUpdate (rg s) (acct s) (nm s)
                       (parametersOf (data s) vTime)])).
Proof.
  intros HC HP HW. rewrite (CreateUpdate_after_check req s s0 vTime HC HP).
  cbv zeta. rewrite HW. reflexivity.
Qed.

(** X5. When [CreateOrUpdate] succeeds and the [Get] that follows returns
    an error, also one with a not-found response, create-or-update fails
    with the retrieving error that carries it, and the identifier of the
    data is not set. *)
Theorem create_update_retrieve_error
    req (s s0 : Env schema.ResourceData World) vTime r w1 resp e w2 :
  checkExisting client req (nm s) (rg s) (acct s) s = (Returned tt, s0) ->
  time.Parse time.RFC3339 (schema.value (data s)) = inr vTime ->
  automation.CreateOrUpdate client (rg s) (acct s) (nm s)
    (parametersOf (data s) vTime) (remote s0) = ((r, None), w1) ->
  automation.Get client (rg s) (acct s) (nm s) w1 = ((resp, Some e), w2) ->
  CreateUpdate req s =
    (Failed (ErrorRetrieving (nm s) (acct s) (rg s) e),
     mkEnv (data s) w2
       ((calls s0 ++ [CallCreateOrUpdate (rg s) (acct s) (nm s)
                        (parametersOf (data s) vTime)])
        ++ [CallGet (rg s) (acct s) (nm s)])).
Proof.
  intros HC HP HW HG. rewrite (CreateUpdate_after_check req s s0 vTime HC HP).
  cbv zeta. rewrite HW. simpl. rewrite HG. reflexivity.
Qed.

(** X6. When the identifier of the data does not parse, the read returns
    the error of [parseAzureResourceID] as it is, calls nothing and changes
    nothing. *)
Theorem read_invalid_id (s : Env schema.ResourceData World) e :
  parseAzureResourceID (schema.Id (data s)) = inl e ->
  Read s = (Failed e, s).
Proof. intros HI. run. rewrite HI. destruct s; reflexivity. Qed.

(** X7. When the identifier of the data does not parse, the delete returns
    the error of [parseAzureResourceID] as it is, calls nothing and changes
    nothing. *)
Theorem delete_invalid_id (s : Env schema.ResourceData World) e :
  parseAzureResourceID (schema.Id (data s)) = inl e ->
  Delete s = (Failed e, s).
Proof. intros HI. run. rewrite HI. destruct s; reflexivity. Qed.

(** X8. On a read that finds a record whose encrypted flag is false or not
    there, and whose value the decoder turns into a time: the read succeeds;
    name, resource group, account name, description and encrypted flag are
    set from the record and the identifier, and the value becomes that time
    printed with the layout of line 149. *)
Theorem read_decodes_value
    (s : Env schema.ResourceData World) id resp w' p t :
  parseAzureResourceID (schema.Id (data s)) = inr id ->
  automation.Get client (ResourceGroup id) (index (Path id) "automationAccounts")
    (index (Path id) "variables") (remote s) = ((resp, None), w') ->
  automation.Properties resp = Some p ->
  orFalse (automation.IsEncrypted p) = false ->
  ParseAzureRmAutomationVariableValue "azurerm_automation_datetime_variable"
    (automation.Value p) = inr (VTime t) ->
  Read s =
    (Returned tt,
     mkEnv {| schema.Id := schema.Id (data s);
              schema.name := orZero (automation.Name resp);
              schema.resource_group_name := ResourceGroup id;
              schema.automation_account_name := index (Path id) "automationAccounts";
              schema.description := orZero (automation.Description p);
              schema.encrypted := false;
              schema.value := time.Format t time.layoutMilliZ |}
           w' (calls s ++ [CallGet (ResourceGroup id)
                             (index (Path id) "automationAccounts")
                             (index (Path id) "variables")])).
Proof.
  intros HI HG HP HE HD. rewrite (Read_found s id resp w' HI HG), HP.
  cbv zeta. rewrite HE, HD. unfold afterProperties. rewrite HE. reflexivity.
Qed.

(** X9. On a read that finds a record that is not encrypted and whose value
    the decoder rejects: the read fails with the error of the decoder as it
    is. Name, resource group, account name, description and encrypted flag
    were set before and stay set; value and identifier are as they were. *)
Theorem read_decode_error
    (s : Env schema.ResourceData World) id resp w' p e :
  parseAzureResourceID (schema.Id (data s)) = inr id ->
  automation.Get client (ResourceGroup id) (index (Path id) "automationAccounts")
    (index (Path id) "variables") (remote s) = ((resp, None), w') ->
  automation.Properties resp = Some p ->
  orFalse (automation.IsEncrypted p) = false ->
  ParseAzureRmAutomationVariableValue "azurerm_automation_datetime_variable"
    (automation.Value p) = inl e ->
  Read s =
    (Failed e,
     mkEnv {| schema.Id := schema.Id (data s);
              schema.name := orZero (automation.Name resp);
              schema.resource_group_name := ResourceGroup id;
              schema.automation_account_name := index (Path id) "automationAccounts";
              schema.description := orZero (automation.Description p);
              schema.encrypted := false;
              schema.value := schema.value (data s) |}
           w' (calls s ++ [CallGet (ResourceGroup id)
                             (index (Path id) "automationAccounts")
                             (index (Path id) "variables")])).
Proof.
  intros HI HG HP HE HD. rewrite (Read_found s id resp w' HI HG), HP.
  cbv zeta. rewrite HE, HD. unfold afterProperties. rewrite HE. reflexivity.
Qed.

(** X10. On a read that finds a record without properties: the read
    succeeds and sets name, resource group and account name only;
    description, encrypted flag, value and identifier are as they were. *)
Theorem read_without_properties
    (s : Env schema.ResourceData World) id resp w' :
  parseAzureResourceID (schema.Id (data s)) = inr id ->
  automation.Get client (ResourceGroup id) (index (Path id) "automationAccounts")
    (index (Path id) "variables") (remote s) = ((resp, None), w') ->
  automation.Properties resp = None ->
  Read s =
    (Returned tt,
     mkEnv {| schema.Id := schema.Id (data s);
              schema.name := orZero (automation.Name resp);
              schema.resource_group_name := ResourceGroup id;
              schema.automation_account_name := index (Path id) "automationAccounts";
              schema.description := schema.description (data s);
              schema.encrypted := schema.encrypted (data s);
              schema.value := schema.value (data s) |}
           w' (calls s ++ [CallGet (ResourceGroup id)
                             (index (Path id) "automationAccounts")
                             (index (Path id) "variables")])).
Proof.
  intros HI HG HP. rewrite (Read_found s id resp w' HI HG), HP. reflexivity.
Qed.

(** X11. On a read that finds a record that is not encrypted and whose
    value the decoder turns into something that is no time, the read
    panics: the result is asserted to be a time. *)
Theorem read_non_time_panics
    (s : Env schema.ResourceData World) id resp w' p v :
  parseAzureResourceID (schema.Id (data s)) = inr id ->
  automation.Get client (ResourceGroup id) (index (Path id) "automationAccounts")
    (index (Path id) "variables") (remote s) = ((resp, None), w') ->
  automation.Properties resp = Some p ->
  orFalse (automation.IsEncrypted p) = false ->
  ParseAzureRmAutomationVariableValue "azurerm_automation_datetime_variable"
    (automation.Value p) = inr v ->
  (forall t, v <> VTime t) ->
  fst (Read s) = Panicked.
Proof.
  intros HI HG HP HE HD Hv. rewrite (Read_found s id resp w' HI HG), HP.
  cbv zeta. rewrite HE, HD. destruct v; try reflexivity. exfalso. exact (Hv t eq_refl).
Qed.

(** X12. A read calls the client at most once, and only with [Get]: it
    never writes to the service and never deletes from it. *)
Theorem read_only_gets (s : Env schema.ResourceData World) :
  exists l, calls (snd (Read s)) = (calls s ++ l)%list /\
            (l = [] \/ exists r a n, l = [CallGet r a n]).
Proof. exact (Read_calls s). Qed.

(** X13. A delete leaves the data as they were, the identifier included,
    and calls the client at most once, with [Delete]. *)
Theorem delete_only_deletes (s : Env schema.ResourceData World) :
  data (snd (Delete s)) = data s /\
  exists l, calls (snd (Delete s)) = (calls s ++ l)%list /\
            (l = [] \/ exists r a n, l = [CallDelete r a n]).
Proof.
  run. destruct (parseAzureResourceID (schema.Id (data s))) as [e|id]; simpl.
  - split; [reflexivity|]. exists []. rewrite app_nil_r. auto.
  - destruct (automation.Delete client _ _ _ (remote s)) as [[resp [e|]] w']; simpl;
      (split; [reflexivity|]; eexists; split; [reflexivity|right; eauto]).
Qed.

(** X14. The destroy check on a state whose first integer variable, in the
    order of the loop, has its attributes: it makes one [Get] for that
    variable, and fails only when that [Get] returns an error whose response
    is not the not-found one. When [Get] returns no error, so that the
    variable is still there, the check passes. *)
Theorem destroy_check_outcome
    (resources : list (string * terraform.ResourceState))
    (s : Env unit World) k rs primary resp err w' :
  firstIntVariable resources = [(k, rs)] ->
  terraform.Primary rs = Some primary ->
  let name := index (terraform.Attributes primary) "name" in
  let resourceGroup := index (terraform.Attributes primary) "resource_group_name" in
  let accountName := index (terraform.Attributes primary) "automation_account_name" in
  automation.Get client resourceGroup accountName name (remote s) = ((resp, err), w') ->
  testCheckAzureRMAutomationIntVariableDestroy client resources s =
    (match err with
     | Some e =>
         if utils.ResponseWasNotFound (automation.Response resp)
         then Returned tt else Failed (ErrorBadGet e)
     | None => Returned tt
     end,
     mkEnv tt w' (calls s ++ [CallGet resourceGroup accountName name])).
Proof.
  intros HF HP name resourceGroup accountName HG.
  unfold testCheckAzureRMAutomationIntVariableDestroy.
  induction resources as [|[k0 rs0] rest IH]; [discriminate|].
  simpl in HF |- *.
  destruct (String.eqb (terraform.Type_ rs0) "azurerm_automation_int_variable"); simpl.
  - injection HF as -> ->. rewrite HP.
    unfold bind, deref, clientGet, ret, fail. simpl.
    fold name resourceGroup accountName. rewrite HG. simpl.
    destruct s as [[] w c]. simpl.
    destruct err as [e|]; [|reflexivity].
    destruct (utils.ResponseWasNotFound (automation.Response resp)); reflexivity.
  - exact (IH HF).
Qed.

(** X15. The destroy check on a state without an integer variable passes
    without calling the client. *)
Theorem destroy_check_nothing_to_check
    (resources : list (string * terraform.ResourceState))
    (s : Env unit World) :
  firstIntVariable resources = [] ->
  testCheckAzureRMAutomationIntVariableDestroy client resources s = (Returned tt, s).
Proof.
  intros HF. unfold testCheckAzureRMAutomationIntVariableDestroy.
  induction resources as [|[k0 rs0] rest IH]; [reflexivity|].
  simpl in HF |- *.
  destruct (String.eqb (terraform.Type_ rs0) "azurerm_automation_int_variable");
    [discriminate|]. exact (IH HF).
Qed.

(** X16. The exists check for a resource that is in the state with its
    attributes makes one [Get] for it: it passes when [Get] returns no error,
    fails with the does-not-exist error when the response is the not-found
    one, and with the bad-Get error that carries the error otherwise. *)
Theorem exists_check_outcome
    resourceName (resources : gmap string terraform.ResourceState)
    (s : Env unit World) rs primary resp err w' :
  resources !! resourceName = Some rs ->
  terraform.Primary rs = Some primary ->
  let name := index (terraform.Attributes primary) "name" in
  let resourceGroup := index (terraform.Attributes primary) "resource_group_name" in
  let accountName := index (terraform.Attributes primary) "automation_account_name" in
  automation.Get client resourceGroup accountName name (remote s) = ((resp, err), w') ->
  testCheckAzureRMAutomationIntVariableExists client resourceName resources s =
    (match err with
     | Some e =>
         if utils.ResponseWasNotFound (automation.Response resp)
         then Failed (ErrorDoesNotExist name accountName resourceGroup)
         else Failed (ErrorBadGet e)
     | None => Returned tt
     end,
     mkEnv tt w' (calls s ++ [CallGet resourceGroup accountName name])).
Proof.
  intros HR HP name resourceGroup accountName HG.
  unfold testCheckAzureRMAutomationIntVariableExists. rewrite HR, HP.
  unfold bind, deref, clientGet, ret, fail. simpl.
  fold name resourceGroup accountName. rewrite HG. simpl.
  destruct s as [[] w c]. simpl.
  destruct err as [e|]; [|reflexivity].
  destruct (utils.ResponseWasNotFound (automation.Response resp)); reflexivity.
Qed.

(** X17. The exists check for a resource that is not in the state fails
    with the not-found-in-state error, without calling the client. *)
Theorem exists_check_not_in_state
    resourceName (resources : gmap string terraform.ResourceState)
    (s : Env unit World) :
  resources !! resourceName = None ->
  testCheckAzureRMAutomationIntVariableExists client resourceName resources s =
    (Failed (ErrorNotInState resourceName), s).
Proof.
  intros HR. unfold testCheckAzureRMAutomationIntVariableExists. rewrite HR.
  reflexivity.
Qed.

(** C3. With the import guard on, when the probing [Get] succeeds and its
    response is not the not-found one, so that a variable is there already,
    and the record found has the identifier [id]: create-or-update fails with
    the already-exists error of [tf.ImportAsExistsError] for [id], and the only
    call made to the client is that [Get]; [CreateOrUpdate] is not called. *)
Theorem create_update_import_guard_conflict
    (s : Env schema.ResourceData World) resp w' id :
  automation.Get client (rg s) (acct s) (nm s) (remote s) = ((resp, None), w') ->
  utils.ResponseWasNotFound (automation.Response resp) = false ->
  automation.ID resp = Some id ->
  CreateUpdate true s =
    (Failed (ImportAsExistsError "azurerm_automation_datetime_variable" id),
     mkEnv (data s) w' (calls s ++ [CallGet (rg s) (acct s) (nm s)])) /\
  noCreateOrUpdateSince s (snd (CreateUpdate true s)).
Proof.
  intros HG HN HI.
  assert (CreateUpdate true s =
    (Failed (ImportAsExistsError "azurerm_automation_datetime_variable" id),
     mkEnv (data s) w' (calls s ++ [CallGet (rg s) (acct s) (nm s)]))) as E.
  { run. rewrite HG. simpl. rewrite HN. simpl. rewrite HI. reflexivity. }
  split; [exact E|]. rewrite E. simpl.
  exists [CallGet (rg s) (acct s) (nm s)]. split; reflexivity.
Qed.

(** C10. With the import guard on, when the probing [Get] succeeds and its
    response is not the not-found one, create-or-update panics exactly when
    the record found has no identifier: the identifier is dereferenced
    without a nil check. With an identifier it fails with an error. *)
Theorem create_update_import_guard_panic
    (s : Env schema.ResourceData World) resp w' :
  automation.Get client (rg s) (acct s) (nm s) (remote s) = ((resp, None), w') ->
  utils.ResponseWasNotFound (automation.Response resp) = false ->
  (automation.ID resp = None -> fst (CreateUpdate true s) = Panicked) /\
  (forall id, automation.ID resp = Some id ->
     fst (CreateUpdate true s) =
       Failed (ImportAsExistsError "azurerm_automation_datetime_variable" id)) /\
  (fst (CreateUpdate true s) = Panicked <-> automation.ID resp = None).
Proof.
  intros HG HN.
  assert (forall id, automation.ID resp = Some id ->
     fst (CreateUpdate true s) =
       Failed (ImportAsExistsError "azurerm_automation_datetime_variable" id)) as HS.
  { intros id HI. run. rewrite HG. simpl. rewrite HN. simpl. rewrite HI. reflexivity. }
  assert (automation.ID resp = None -> fst (CreateUpdate true s) = Panicked) as HP.
  { intros HI. run. rewrite HG. simpl. rewrite HN. simpl. rewrite HI. reflexivity. }
  split; [exact HP|]. split; [exact HS|]. split; [|exact HP].
  destruct (automation.ID resp) as [id|] eqn:HI; [|reflexivity].
  rewrite (HS id eq_refl). discriminate.
Qed.

(** C7. When the value is no RFC 3339 timestamp for [time.Parse],
    create-or-update does not succeed and never calls [CreateOrUpdate], so the
    remote variable is not written; the data are left as they were. Whenever
    the check of the import guard lets the call through, the failure is the
    invalid-time-format error that carries the parse error, and nothing was
    done after that check. *)
Theorem create_update_invalid_time_format
    req (s : Env schema.ResourceData World) parseErr :
  time.Parse time.RFC3339 (schema.value (data s)) = inl parseErr ->
  fst (CreateUpdate req s) <> Returned tt /\
  noCreateOrUpdateSince s (snd (CreateUpdate req s)) /\
  data (snd (CreateUpdate req s)) = data s /\
  (forall s0, checkExisting client req (nm s) (rg s) (acct s) s = (Returned tt, s0) ->
     CreateUpdate req s = (Failed (ErrorInvalidTimeFormat parseErr), s0)).
Proof.
  intros HP.
  pose proof (checkExisting_effect req s (nm s) (rg s) (acct s)) as HE.
  pose proof (checkExisting_noCreateOrUpdate req s (nm s) (rg s) (acct s)) as HN.
  simpl in HE. destruct HE as (Hd & _ & _).
  assert (CreateUpdate req s =
          match checkExisting client req (nm s) (rg s) (acct s) s with
          | (Returned _, s0) => (Failed (ErrorInvalidTimeFormat parseErr), s0)
          | (Failed e, s0) => (Failed e, s0)
          | (Panicked, s0) => (Panicked, s0)
          end) as E.
  { unfold resourceArmAutomationDatetimeVariableCreateUpdate, bind, dGet. simpl.
    destruct (checkExisting client req (nm s) (rg s) (acct s) s) as [[u|e|] s0] eqn:HC;
      try reflexivity.
    pose proof (checkExisting_effect req s (nm s) (rg s) (acct s)) as HE.
    simpl in HE. rewrite HC in HE. simpl in HE. destruct HE as (Hd0 & _).
    rewrite Hd0, HP. reflexivity. }
  rewrite E.
  destruct (checkExisting client req (nm s) (rg s) (acct s) s) as [[u|e|] s0];
    simpl in *; repeat split; try discriminate; try assumption.
  intros s1 H. injection H as _ <-. reflexivity.
Qed.

(** C6. After the check of the import guard and a successful
    [CreateOrUpdate], the variable is fetched again with [Get]. When the
    record fetched has no identifier, create-or-update fails with the
    cannot-read-ID error. Otherwise the identifier of the data is set to
    exactly the identifier of that record, and the function goes on as the
    read of those data. *)
Theorem create_update_sets_canonical_id
    req (s s0 : Env schema.ResourceData World) vTime created w1 resp w2 :
  checkExisting client req (nm s) (rg s) (acct s) s = (Returned tt, s0) ->
  time.Parse time.RFC3339 (schema.value (data s)) = inr vTime ->
  let parameters :=
    {| automation.cu_Name := Some (nm s);
       automation.cu_Properties := Some
         {| automation.cu_Value := Some (encodedValue vTime);
            automation.cu_Description := Some (schema.description (data s));
            automation.cu_IsEncrypted := Some (schema.encrypted (data s)) |} |} in
  automation.CreateOrUpdate client (rg s) (acct s) (nm s) parameters (remote s0)
    = ((created, None), w1) ->
  automation.Get client (rg s) (acct s) (nm s) w1 = ((resp, None), w2) ->
  let calls2 := (calls s0 ++ [CallCreateOrUpdate (rg s) (acct s) (nm s) parameters]
                          ++ [CallGet (rg s) (acct s) (nm s)])%list in
  match automation.ID resp with
  | None =>
      CreateUpdate req s =
        (Failed (ErrorCannotReadID (nm s) (acct s) (rg s)),
         mkEnv (data s) w2 calls2)
  | Some id =>
      CreateUpdate req s = Read (mkEnv (schema.SetId id (data s)) w2 calls2) /\
      schema.Id (schema.SetId id (data s)) = id
  end.
Proof.
  intros HC HP parameters HCU HG calls2.
  pose proof (checkExisting_effect req s (nm s) (rg s) (acct s)) as HE.
  simpl in HE. rewrite HC in HE. simpl in HE. destruct HE as (Hd0 & _).
  assert (
    CreateUpdate req s =
      match automation.ID resp with
      | None => (Failed (ErrorCannotReadID (nm s) (acct s) (rg s)),
                 mkEnv (data s) w2 calls2)
      | Some id => Read (mkEnv (schema.SetId id (data s)) w2 calls2)
      end) as E.
  { unfold resourceArmAutomationDatetimeVariableCreateUpdate at 1.
    unfold bind at 1 2 3 4. unfold dGet at 1 2 3. simpl. rewrite HC.
    unfold bind at 1 2 3. unfold dGet at 1 2 3. simpl. rewrite Hd0, HP.
    unfold bind at 1, clientCreateOrUpdate. simpl.
    unfold utils.String, utils.Bool. fold parameters. rewrite HCU. simpl.
    unfold bind at 1, clientGet at 1. simpl. rewrite HG. simpl.
    subst calls2. rewrite Hd0, <- app_assoc.
    destruct (automation.ID resp); reflexivity. }
  destruct (automation.ID resp); [split|]; auto.
Qed.

(** C5. On a read whose [Get] fails: when the response is the not-found one,
    the read clears the identifier of the data and returns without error, the
    other fields as they were; when it is not, the read fails with the reading
    error that carries the error of [Get]. *)
Theorem read_not_found_removes
    (s : Env schema.ResourceData World) id resp e w' :
  parseAzureResourceID (schema.Id (data s)) = inr id ->
  let resourceGroup := ResourceGroup id in
  let accountName := index (Path id) "automationAccounts" in
  let name := index (Path id) "variables" in
  automation.Get client resourceGroup accountName name (remote s)
    = ((resp, Some e), w') ->
  let calls' := (calls s ++ [CallGet resourceGroup accountName name])%list in
  Read s =
    if utils.ResponseWasNotFound (automation.Response resp)
    then (Returned tt, mkEnv (schema.SetId "" (data s)) w' calls')
    else (Failed (ErrorReading name accountName resourceGroup e),
          mkEnv (data s) w' calls').
Proof.
  intros HI resourceGroup accountName name HG calls'.
  run. rewrite HI. simpl. fold resourceGroup accountName name. rewrite HG. simpl.
  destruct (utils.ResponseWasNotFound (automation.Response resp)); reflexivity.
Qed.

(** C8. On a read whose [Get] returns a record with its encrypted flag set:
    the read succeeds, whatever the record's value and whatever the decoder
    would make of it; name, resource group, account name, description and
    the encrypted flag are set from the record and the identifier, and the
    value of the data is the one they had. *)
Theorem read_encrypted_keeps_value
    (s : Env schema.ResourceData World) id resp properties w' :
  parseAzureResourceID (schema.Id (data s)) = inr id ->
  let resourceGroup := ResourceGroup id in
  let accountName := index (Path id) "automationAccounts" in
  let name := index (Path id) "variables" in
  automation.Get client resourceGroup accountName name (remote s)
    = ((resp, None), w') ->
  automation.Properties resp = Some properties ->
  automation.IsEncrypted properties = Some true ->
  Read s =
    (Returned tt,
     mkEnv {| schema.Id := schema.Id (data s);
              schema.name := orZero (automation.Name resp);
              schema.resource_group_name := resourceGroup;
              schema.automation_account_name := accountName;
              schema.description := orZero (automation.Description properties);
              schema.encrypted := true;
              schema.value := schema.value (data s) |}
           w' (calls s ++ [CallGet resourceGroup accountName name])).
Proof.
  intros HI resourceGroup accountName name HG HP HE.
  run. rewrite HI. simpl. fold resourceGroup accountName name. rewrite HG. simpl.
  rewrite HP. simpl. rewrite HE. reflexivity.
Qed.

(** C2, as the code has it. The delete reports success exactly when the
    [Delete] of the client returns no error. Every error of [Delete], also
    one that comes with a not-found response, is returned as the deleting
    error that carries it. *)
Theorem delete_surfaces_every_error
    (s : Env schema.ResourceData World) id resp err w' :
  parseAzureResourceID (schema.Id (data s)) = inr id ->
  let resourceGroup := ResourceGroup id in
  let accountName := index (Path id) "automationAccounts" in
  let name := index (Path id) "variables" in
  automation.Delete client resourceGroup accountName name (remote s)
    = ((resp, err), w') ->
  Delete s =
    (match err with
     | Some e => Failed (ErrorDeleting name accountName resourceGroup e)
     | None => Returned tt
     end,
     mkEnv (data s) w' (calls s ++ [CallDelete resourceGroup accountName name])) /\
  (fst (Delete s) = Returned tt <-> err = None).
Proof.
  intros HI resourceGroup accountName name HD.
  assert (Delete s =
    (match err with
     | Some e => Failed (ErrorDeleting name accountName resourceGroup e)
     | None => Returned tt
     end,
     mkEnv (data s) w' (calls s ++ [CallDelete resourceGroup accountName name]))) as E.
  { run. rewrite HI. simpl. fold resourceGroup accountName name. rewrite HD. simpl.
    destruct err; reflexivity. }
  split; [exact E|]. rewrite E. simpl. destruct err; split; congruence.
Qed.

(** C9. The destroy check on a state whose resources, in the order of the
    loop, are [before], without an integer variable, then the integer variable
    [rs], then [rest], whatever it holds: the check makes one [Get], for [rs],
    and returns at once, with success unless that [Get] returned an error
    whose response is not the not-found one. The resources of [rest], also
    the integer variables among them, are never looked at: the outcome is the
    outcome of the check on [rs] alone. (When [rs] has no primary instance the
    check panics before any call.) *)
Theorem destroy_check_first_only
    (before rest : list (string * terraform.ResourceState)) k rs
    (s : Env unit World) :
  Forall (fun kr : string * terraform.ResourceState =>
            String.eqb (terraform.Type_ (snd kr)) "azurerm_automation_int_variable"
            = false) before ->
  String.eqb (terraform.Type_ rs) "azurerm_automation_int_variable" = true ->
  let outcome :=
    match terraform.Primary rs with
    | None => (Panicked, s)
    | Some primary =>
        let name := index (terraform.Attributes primary) "name" in
        let resourceGroup := index (terraform.Attributes primary) "resource_group_name" in
        let accountName :=
          index (terraform.Attributes primary) "automation_account_name" in
        let fetched :=
          automation.Get client resourceGroup accountName name (remote s) in
        (match snd (fst fetched) with
         | Some e =>
             if utils.ResponseWasNotFound (automation.Response (fst (fst fetched)))
             then Returned tt else Failed (ErrorBadGet e)
         | None => Returned tt
         end,
         mkEnv tt (snd fetched) (calls s ++ [CallGet resourceGroup accountName name]))
    end in
  testCheckAzureRMAutomationIntVariableDestroy client (before ++ (k, rs) :: rest) s
    = outcome /\
  testCheckAzureRMAutomationIntVariableDestroy client [(k, rs)] s = outcome.
Proof.
  intros HB HT outcome.
  assert (forall tail,
            destroyLoop client ((k, rs) :: tail) s = outcome) as Hfirst.
  { intros tail. cbn [destroyLoop]. rewrite HT. cbn [negb]. subst outcome.
    unfold bind, deref, clientGet, ret, fail, panic.
    destruct (terraform.Primary rs) as [primary|]; [|reflexivity]. cbv zeta.
    destruct (automation.Get client _ _ _ (remote s)) as [[resp err] w].
    destruct s as [[] w0 c]. cbn [fst snd data remote calls].
    destruct err as [e|]; [|reflexivity].
    destruct (utils.ResponseWasNotFound (automation.Response resp)); reflexivity. }
  unfold testCheckAzureRMAutomationIntVariableDestroy.
  split; [|apply Hfirst].
  induction HB as [|[k0 rs0] before H0 HB IH]; [apply Hfirst|].
  cbn [app destroyLoop]. cbn [snd] in H0. rewrite H0. exact IH.
Qed.

End Properties.

(** ** The date-time value: encoding, decoding, printing *)

Lemma millis_range t :
  - 2 ^ 63 <= time.instant t < 2 ^ 63 ->
  -9223372036854 <= time.UnixNano t ÷ 1000000 <= 9223372036854 /\
  time.UnixNano t = time.instant t.
Proof.
  intros H. rewrite (UnixNano_instant t H).
  change (2 ^ 63) with 9223372036854775808 in H.
  split; [|reflexivity]. Z.to_euclidean_division_equations. lia.
Qed.

Lemma Format_timeOfMillis ms :
  -9223372036854 <= ms <= 9223372036854 ->
  exists Y M D h mi s,
    time.Format (timeOfMillis ms) time.layoutMilliZ = rendered Y M D h mi s (ms mod 1000).
Proof.
  intros Hms.
  pose proof (abs_timeOfMillis ms Hms) as Ha.
  assert (Hk : 0 <= ms mod 1000 < 1000) by (apply Z.mod_pos_bound; lia).
  pose proof (Date_absDate (ms / 1000 + unixToAbsolute) (ms mod 1000 * 1000000)
                ltac:(unfold unixToAbsolute; Z.div_mod_to_equations; lia) ltac:(lia)) as HD.
  rewrite <- Ha in HD.
  destruct (time.absDate (time.abs (timeOfMillis ms))) as [[Y M] D] eqn:EDate.
  destruct (time.absClock (time.abs (timeOfMillis ms))) as [[h mi] s] eqn:EClock.
  destruct HD as (HY & HM & HD1 & HD2 & Hh & Hmi & Hs & HDate).
  assert (HD31 : D < 100).
  { assert (time.daysIn M Y <= 31); [|lia]. rewrite daysIn_eq.
    assert (M = 1 \/ M = 2 \/ M = 3 \/ M = 4 \/ M = 5 \/ M = 6 \/ M = 7
          \/ M = 8 \/ M = 9 \/ M = 10 \/ M = 11 \/ M = 12) as Hm by lia.
    repeat (destruct Hm as [-> | Hm]; [destruct (time.isLeap Y); cbv; discriminate|]).
    subst. destruct (time.isLeap Y); cbv; discriminate. }
  exists Y, M, D, h, mi, s.
  apply (Format_rendered _ Y M D h mi s (ms mod 1000) EDate EClock eq_refl); lia.
Qed.

Lemma length_rendered_whole Y M D h mi s :
  String.length (rendered Y M D h mi s 0) = 20%nat.
Proof.
  unfold rendered, four, two. rewrite fracZ_zero.
  repeat (rewrite ?app_String, ?app_Empty; cbn [String.length]). reflexivity.
Qed.

(** X22. For every timestamp [x] that [time.Parse] accepts
    as RFC 3339 and whose instant, in nanoseconds since the epoch, fits the
    [int64] of [UnixNano]: the decoder turns the encoded value of [x] into the
    time at [UnixNano/1000000] milliseconds; the read prints it as a string
    that [time.Parse] reads back as that very time; and its instant is the
    instant of [x] with the nanoseconds since the epoch truncated toward zero
    to whole milliseconds. *)
Theorem datetime_round_trip_in_range x t :
  time.Parse time.RFC3339 x = inr t ->
  - 2 ^ 63 <= time.instant t < 2 ^ 63 ->
  let ms := time.UnixNano t ÷ 1000000 in
  decodeVariableValue "azurerm_automation_datetime_variable"
    (Some (encodedValue t)) = inr (VTime (timeOfMillis ms)) /\
  time.Parse time.RFC3339 (time.Format (timeOfMillis ms) time.layoutMilliZ)
    = inr (timeOfMillis ms) /\
  time.instant (timeOfMillis ms) = time.instant t ÷ 1000000 * 1000000.
Proof.
  intros _ Hr ms. destruct (millis_range t Hr) as (Hms & HU).
  split; [apply decode_encoded|].
  split; [apply Parse_Format_millis; exact Hms|].
  rewrite instant_timeOfMillis. subst ms. rewrite HU. reflexivity.
Qed.

(** X18. Applying the value a read has printed gives the encoded value
    again: for a time [t] whose instant fits the [int64] of [UnixNano], the
    string printed for the decoded value of [t] parses, and its encoded value
    is the encoded value of [t]. *)
Theorem printed_value_encodes_alike t :
  - 2 ^ 63 <= time.instant t < 2 ^ 63 ->
  exists t',
    time.Parse time.RFC3339
      (time.Format (timeOfMillis (time.UnixNano t ÷ 1000000)) time.layoutMilliZ)
      = inr t' /\
    encodedValue t' = encodedValue t.
Proof.
  intros Hr. destruct (millis_range t Hr) as (Hms & HU).
  exists (timeOfMillis (time.UnixNano t ÷ 1000000)).
  split; [apply Parse_Format_millis; exact Hms|].
  unfold encodedValue. f_equal.
  rewrite (UnixNano_instant (timeOfMillis _)).
  - rewrite instant_timeOfMillis. rewrite Z.quot_mul by lia. reflexivity.
  - rewrite instant_timeOfMillis. change (2 ^ 63) with 9223372036854775808. lia.
Qed.

(** X19. The milliseconds of the encoded value are the nanoseconds since
    the epoch truncated toward zero: less than a millisecond is lost, and the
    encoded instant lies between the epoch and the instant of the time. *)
Theorem encoded_millis_truncate t :
  - 2 ^ 63 <= time.instant t < 2 ^ 63 ->
  let ms := time.UnixNano t ÷ 1000000 in
  Z.abs (time.instant t - ms * 1000000) < 1000000 /\
  (0 <= time.instant t -> 0 <= ms * 1000000 <= time.instant t) /\
  (time.instant t <= 0 -> time.instant t <= ms * 1000000 <= 0).
Proof.
  intros Hr ms. destruct (millis_range t Hr) as (_ & HU). subst ms. rewrite HU.
  Z.to_euclidean_division_equations. lia.
Qed.

(** X20. The value printed for a whole number of seconds has no fraction:
    for [ms] a multiple of 1000, within the range of [UnixNano], the string
    has the 20 characters of date, T, clock and Z. *)
Theorem printed_whole_second ms :
  -9223372036854 <= ms <= 9223372036854 ->
  ms mod 1000 = 0 ->
  String.length (time.Format (timeOfMillis ms) time.layoutMilliZ) = 20%nat.
Proof.
  intros Hms Hk. destruct (Format_timeOfMillis ms Hms) as (Y & M & D & h & mi & s & HF).
  rewrite HF, Hk. apply length_rendered_whole.
Qed.

(** ** The scenario of 2 January 2023, and create followed by read *)

Section Scenario.

Context {World : Type}.
Variable client : automation.VariableClient World.
Variable parseAzureResourceID : string -> error + ResourceID.

Local Abbreviation CreateUpdate req :=
  (resourceArmAutomationDatetimeVariableCreateUpdate
     client req parseAzureResourceID decodeVariableValue).
Local Abbreviation Read :=
  (resourceArmAutomationDatetimeVariableRead
     client parseAzureResourceID decodeVariableValue).
Local Abbreviation rg s := (schema.resource_group_name (data s)).
Local Abbreviation acct s := (schema.automation_account_name (data s)).
Local Abbreviation nm s := (schema.name (data s)).

(** C1, as the code has it. For data whose value is 2023-01-02T15:04:05Z,
    once the check of the import guard has let the call through,
    create-or-update calls [CreateOrUpdate] with the encoded value that
    carries the milliseconds 1672671845000 in the Date wrapper; and a read
    that finds a record that is not encrypted, with that encoded value, sets
    the value to 2023-01-02T15:04:05Z: the layout prints no fraction for a
    whole second. *)
Theorem datetime_scenario_2023 req (s s0 : Env schema.ResourceData World) :
  schema.value (data s) = "2023-01-02T15:04:05Z" ->
  checkExisting client req (nm s) (rg s) (acct s) s = (Returned tt, s0) ->
  (exists l, calls (snd (CreateUpdate req s)) =
     (calls s0 ++
      [CallCreateOrUpdate (rg s) (acct s) (nm s)
         {| automation.cu_Name := Some (nm s);
            automation.cu_Properties := Some
              {| automation.cu_Value := Some (dateToken 1672671845000);
                 automation.cu_Description := Some (schema.description (data s));
                 automation.cu_IsEncrypted := Some (schema.encrypted (data s)) |} |}]
      ++ l)%list) /\
  dateToken 1672671845000 =
    dquote ++ backslash ++ "/Date(1672671845000)" ++ backslash ++ "/" ++ dquote /\
  (forall (s1 : Env schema.ResourceData World) id resp w' p,
     parseAzureResourceID (schema.Id (data s1)) = inr id ->
     automation.Get client (ResourceGroup id) (index (Path id) "automationAccounts")
       (index (Path id) "variables") (remote s1) = ((resp, None), w') ->
     automation.Properties resp = Some p ->
     orFalse (automation.IsEncrypted p) = false ->
     automation.Value p = Some (dateToken 1672671845000) ->
     fst (Read s1) = Returned tt /\
     schema.value (data (snd (Read s1))) = "2023-01-02T15:04:05Z").
Proof.
  intros HV HC.
  assert (time.Parse time.RFC3339 (schema.value (data s))
          = inr (time.mkTime 1672671845 0 0)) as HP
    by (rewrite HV; vm_compute; reflexivity).
  split; [|split].
  - destruct (CreateUpdate_calls_after_check client parseAzureResourceID
                decodeVariableValue req s s0 _ HC HP) as (l & Hl).
    exists l. exact Hl.
  - vm_compute. reflexivity.
  - intros s1 id resp w' p HI HG HPr HE HVal.
    rewrite (read_value_aux client parseAzureResourceID decodeVariableValue
               s1 id resp w' p (timeOfMillis 1672671845000) HI HG HPr HE
               ltac:(rewrite HVal; apply decode_encoded)).
    split; [reflexivity|]. vm_compute. reflexivity.
Qed.

(** X21. Create followed by its read, when every call succeeds: the check
    of the import guard lets the call through, the value parses to a time
    within the range of [UnixNano], [CreateOrUpdate] and the [Get] after it
    succeed, the identifier fetched parses, and the [Get] of the read finds a
    record that is not encrypted and holds the encoded value that was sent.
    Then create-or-update succeeds, the identifier of the data is the one
    fetched, and the value of the data is the time at the encoded
    milliseconds, printed by the layout. *)
Theorem create_update_then_read
    req (s s0 : Env schema.ResourceData World) vTime r w1 resp id w2 rid resp2 p w3 :
  checkExisting client req (nm s) (rg s) (acct s) s = (Returned tt, s0) ->
  time.Parse time.RFC3339 (schema.value (data s)) = inr vTime ->
  automation.CreateOrUpdate client (rg s) (acct s) (nm s)
    (parametersOf (data s) vTime) (remote s0) = ((r, None), w1) ->
  automation.Get client (rg s) (acct s) (nm s) w1 = ((resp, None), w2) ->
  automation.ID resp = Some id ->
  parseAzureResourceID id = inr rid ->
  automation.Get client (ResourceGroup rid) (index (Path rid) "automationAccounts")
    (index (Path rid) "variables") w2 = ((resp2, None), w3) ->
  automation.Properties resp2 = Some p ->
  orFalse (automation.IsEncrypted p) = false ->
  automation.Value p = Some (encodedValue vTime) ->
  fst (CreateUpdate req s) = Returned tt /\
  schema.Id (data (snd (CreateUpdate req s))) = id /\
  schema.value (data (snd (CreateUpdate req s))) =
    time.Format (timeOfMillis (time.UnixNano vTime ÷ 1000000)) time.layoutMilliZ.
Proof.
  intros HC HP HW HG HI HR HG2 HPr HE HV.
  rewrite (CreateUpdate_after_check client parseAzureResourceID decodeVariableValue
             req s s0 vTime HC HP).
  cbv zeta. rewrite HW. simpl. rewrite HG. simpl. rewrite HI.
  match goal with
  | |- context [resourceArmAutomationDatetimeVariableRead _ _ _ ?s2] =>
      rewrite (read_value_aux client parseAzureResourceID decodeVariableValue
                 s2 rid resp2 w3 p (timeOfMillis (time.UnixNano vTime ÷ 1000000))
                 HR HG2 HPr HE ltac:(rewrite HV; apply decode_encoded))
  end.
  repeat split; reflexivity.
Qed.

End Scenario.

(** ** The properties on examples *)

Section Examples.

Local Abbreviation CreateUpdate c req :=
  (resourceArmAutomationDatetimeVariableCreateUpdate
     c req memory.parseId decodeVariableValue).
Local Abbreviation Read c :=
  (resourceArmAutomationDatetimeVariableRead c memory.parseId decodeVariableValue).
Local Abbreviation Delete c :=
  (resourceArmAutomationDatetimeVariableDelete c memory.parseId).

Local Ltac compute_eq := vm_compute; reflexivity.
Local Ltac in_range := split; [vm_compute; discriminate | vm_compute; reflexivity].

(** The variable is there already: the create is refused. *)
Lemma create_update_import_guard_conflict_witness :
  fst (CreateUpdate finder true (plain "" sampleValue)) =
    Failed (ImportAsExistsError "azurerm_automation_datetime_variable" theId).
Proof.
  destruct (create_update_import_guard_conflict finder memory.parseId
              decodeVariableValue (plain "" sampleValue) (fst epochRecord) tt theId
              eq_refl eq_refl eq_refl) as [H _].
  rewrite H. reflexivity.
Defined.

(** The record found has no identifier: the create panics. *)
Lemma create_update_import_guard_panic_witness :
  fst (CreateUpdate (stub.client (stub.found None (Some false) None)
                       epochRecord (stub.deleted 200 None))
         true (plain "" sampleValue)) = Panicked.
Proof.
  destruct (create_update_import_guard_panic
              (stub.client (stub.found None (Some false) None)
                 epochRecord (stub.deleted 200 None))
              memory.parseId decodeVariableValue (plain "" sampleValue)
              (fst (stub.found None (Some false) None)) tt eq_refl eq_refl)
    as [H _].
  exact (H eq_refl).
Defined.

(** A value that is no timestamp: the create fails before any call. *)
Lemma create_update_invalid_time_format_witness :
  CreateUpdate (failing 500) false (plain "" "yesterday") =
    (Failed (ErrorInvalidTimeFormat time.errBad), plain "" "yesterday").
Proof.
  destruct (create_update_invalid_time_format (failing 500) memory.parseId
              decodeVariableValue false (plain "" "yesterday") time.errBad
              ltac:(compute_eq)) as (_ & _ & _ & H).
  exact (H _ eq_refl).
Defined.

(** The identifier fetched after the write becomes the identifier of the
    data. *)
Lemma create_update_sets_canonical_id_witness :
  schema.Id (data (snd (CreateUpdate finder false (plain "" sampleValue)))) = theId.
Proof.
  pose proof (create_update_sets_canonical_id finder memory.parseId
                decodeVariableValue false (plain "" sampleValue)
                (plain "" sampleValue) sampleTime (fst epochRecord) tt
                (fst epochRecord) tt eq_refl ltac:(compute_eq) eq_refl eq_refl) as H.
  cbv zeta in H. change (automation.ID (fst epochRecord)) with (Some theId) in H.
  destruct H as [H _]. rewrite H. compute_eq.
Defined.

(** The variable is gone: the read clears the identifier. *)
Lemma read_not_found_removes_witness :
  Read (failing 404) (plain theId "old") =
    (Returned tt, mkEnv (memory.variable "" "old" false) tt [CallGet "rg" "acct" "v1"]).
Proof.
  rewrite (read_not_found_removes (failing 404) memory.parseId decodeVariableValue
             (plain theId "old") theResourceID (fst (stub.failure 404))
             (ExternalError "StatusCode") tt ltac:(compute_eq) eq_refl).
  compute_eq.
Defined.

(** The record is encrypted: the value stays. *)
Lemma read_encrypted_keeps_value_witness :
  schema.value (data (snd (Read (stub.client (stub.found (Some theId) (Some true) None)
                                   epochRecord (stub.deleted 200 None))
                             (plain theId "kept")))) = "kept".
Proof.
  rewrite (read_encrypted_keeps_value
             (stub.client (stub.found (Some theId) (Some true) None)
                epochRecord (stub.deleted 200 None))
             memory.parseId decodeVariableValue (plain theId "kept") theResourceID
             (fst (stub.found (Some theId) (Some true) None)) _ tt
             ltac:(compute_eq) eq_refl eq_refl eq_refl).
  reflexivity.
Defined.

(** The delete of a variable the service does not have fails. *)
Lemma delete_surfaces_every_error_witness :
  fst (Delete (failing 404) (plain theId "old")) =
    Failed (ErrorDeleting "v1" "acct" "rg" (ExternalError "StatusCode")).
Proof.
  destruct (delete_surfaces_every_error (failing 404) memory.parseId
              (plain theId "old") theResourceID (memory.status 404)
              (Some (ExternalError "StatusCode")) tt ltac:(compute_eq) eq_refl)
    as [H _].
  rewrite H. compute_eq.
Defined.

(** Counterexample to C2: in the service kept in memory the first delete of
    the variable succeeds; the second is answered with the not-found response
    and an error, and the delete returns the deleting error. *)
Lemma delete_twice_fails :
  fst (Delete memory.client created) = Returned tt /\
  utils.ResponseWasNotFound
    (fst (fst (automation.Delete memory.client "rg" "acct" "v1" (remote deleted))))
    = true /\
  fst (Delete memory.client deleted) =
    Failed (ErrorDeleting "v1" "acct" "rg" (ExternalError "ResourceNotFound")).
Proof. repeat split; compute_eq. Qed.

(** Counterexample to C1: created in the service kept in memory with the
    value 2023-01-02T15:04:05Z, the variable holds the encoded value with the
    milliseconds 1672671845000, and the read that follows sets the value to
    2023-01-02T15:04:05Z, without the fraction .000 of the claim. *)
Lemma datetime_scenario_no_fixed_precision :
  remote created !! ("rg", "acct", "v1") =
    Some {| automation.cu_Value := Some (dateToken 1672671845000);
            automation.cu_Description := Some "";
            automation.cu_IsEncrypted := Some false |} /\
  fst (Read memory.client created) = Returned tt /\
  schema.value (data (snd (Read memory.client created))) = "2023-01-02T15:04:05Z" /\
  schema.value (data (snd (Read memory.client created))) <> "2023-01-02T15:04:05.000Z".
Proof.
  split; [compute_eq|]. split; [compute_eq|]. split; [compute_eq|].
  vm_compute. discriminate.
Qed.

(** The scenario over a client with fixed answers. *)
Lemma datetime_scenario_2023_witness :
  exists l,
    calls (snd (CreateUpdate finder false (plain "" "2023-01-02T15:04:05Z"))) =
      ([] ++ [CallCreateOrUpdate "rg" "acct" "v1"
                {| automation.cu_Name := Some "v1";
                   automation.cu_Properties := Some
                     {| automation.cu_Value := Some (dateToken 1672671845000);
                        automation.cu_Description := Some "";
                        automation.cu_IsEncrypted := Some false |} |}] ++ l)%list.
Proof.
  exact (proj1 (datetime_scenario_2023 finder memory.parseId false
                  (plain "" "2023-01-02T15:04:05Z") (plain "" "2023-01-02T15:04:05Z")
                  eq_refl eq_refl)).
Defined.

(** C4, on the code. The round trip fails for the timestamp of the first
    second of the year 3000: it parses; its nanoseconds since the epoch do not
    fit the [int64] of [UnixNano], which wraps; the encoded value carries the
    milliseconds -4389808147419, and what is read back is a time of the year
    1830, which is not the instant of the timestamp truncated to the
    millisecond. *)
Lemma datetime_round_trip_year_3000 :
  time.Parse time.RFC3339 "3000-01-01T00:00:00Z"
    = inr (time.mkTime 32503680000 0 0) /\
  decodeVariableValue "azurerm_automation_datetime_variable"
    (Some (encodedValue (time.mkTime 32503680000 0 0)))
    = inr (VTime (timeOfMillis (-4389808147419))) /\
  time.Format (timeOfMillis (-4389808147419)) time.layoutMilliZ
    = "1830-11-23T00:50:52.581Z" /\
  time.Parse time.RFC3339 "1830-11-23T00:50:52.581Z"
    = inr (time.mkTime (-4389808148) 581000000 0) /\
  time.instant (time.mkTime (-4389808148) 581000000 0)
    <> time.instant (time.mkTime 32503680000 0 0) ÷ 1000000 * 1000000.
Proof.
  split; [compute_eq|]. split; [compute_eq|]. split; [compute_eq|].
  split; [compute_eq|]. vm_compute. discriminate.
Qed.

(** A timestamp with nanoseconds and a zone goes round. *)
Lemma datetime_round_trip_in_range_witness :
  time.Parse time.RFC3339
    (time.Format (timeOfMillis (time.UnixNano sampleTime ÷ 1000000)) time.layoutMilliZ)
  = inr (timeOfMillis (time.UnixNano sampleTime ÷ 1000000)).
Proof.
  exact (proj1 (proj2 (datetime_round_trip_in_range sampleValue sampleTime
                         ltac:(compute_eq) ltac:(in_range)))).
Defined.

(** The probe fails with status 500. *)
Lemma create_update_probe_error_witness :
  fst (CreateUpdate (failing 500) true (plain "" sampleValue)) =
    Failed (ErrorCheckingPresence "v1" "acct" "rg" (ExternalError "StatusCode")).
Proof.
  rewrite (create_update_probe_error (failing 500) memory.parseId decodeVariableValue
             (plain "" sampleValue) (fst (stub.failure 500))
             (ExternalError "StatusCode") tt eq_refl eq_refl).
  reflexivity.
Defined.

(** The probe finds nothing: the write follows. *)
Lemma create_update_probe_not_found_witness :
  exists l,
    calls (snd (CreateUpdate (blind 404) true (plain "" sampleValue))) =
      ([] ++ [CallGet "rg" "acct" "v1";
              CallCreateOrUpdate "rg" "acct" "v1"
                (parametersOf (memory.variable "" sampleValue false) sampleTime)]
          ++ l)%list.
Proof.
  exact (create_update_probe_not_found (blind 404) memory.parseId decodeVariableValue
           (plain "" sampleValue) (fst (stub.failure 404))
           (Some (ExternalError "StatusCode")) tt sampleTime
           eq_refl eq_refl ltac:(compute_eq)).
Defined.

(** Without the guard the write comes first. *)
Lemma create_update_without_guard_witness :
  exists l,
    calls (snd (CreateUpdate finder false (plain "" sampleValue))) =
      ([] ++ [CallCreateOrUpdate "rg" "acct" "v1"
                (parametersOf (memory.variable "" sampleValue false) sampleTime)]
          ++ l)%list.
Proof.
  exact (create_update_without_guard finder memory.parseId decodeVariableValue
           (plain "" sampleValue) sampleTime ltac:(compute_eq)).
Defined.

(** The write fails with status 500. *)
Lemma create_update_create_error_witness :
  fst (CreateUpdate (failing 500) false (plain "" sampleValue)) =
    Failed (ErrorCreating "v1" "acct" "rg" (ExternalError "StatusCode")).
Proof.
  rewrite (create_update_create_error (failing 500) memory.parseId decodeVariableValue
             false (plain "" sampleValue) (plain "" sampleValue) sampleTime
             (fst (stub.failure 500)) (ExternalError "StatusCode") tt
             eq_refl ltac:(compute_eq) eq_refl).
  reflexivity.
Defined.

(** The write succeeds and the variable cannot be fetched. *)
Lemma create_update_retrieve_error_witness :
  fst (CreateUpdate (blind 404) false (plain "" sampleValue)) =
    Failed (ErrorRetrieving "v1" "acct" "rg" (ExternalError "StatusCode")) /\
  schema.Id (data (snd (CreateUpdate (blind 404) false (plain "" sampleValue)))) = "".
Proof.
  rewrite (create_update_retrieve_error (blind 404) memory.parseId decodeVariableValue
             false (plain "" sampleValue) (plain "" sampleValue) sampleTime
             (fst epochRecord) tt (fst (stub.failure 404))
             (ExternalError "StatusCode") tt
             eq_refl ltac:(compute_eq) eq_refl eq_refl).
  split; reflexivity.
Defined.

(** An identifier that does not parse. *)
Lemma read_invalid_id_witness :
  Read finder (plain "nowhere" "old") =
    (Failed (ExternalError "MalformedIdentifier"), plain "nowhere" "old").
Proof.
  exact (read_invalid_id finder memory.parseId decodeVariableValue
           (plain "nowhere" "old") _ ltac:(compute_eq)).
Defined.

Lemma delete_invalid_id_witness :
  Delete finder (plain "nowhere" "old") =
    (Failed (ExternalError "MalformedIdentifier"), plain "nowhere" "old").
Proof.
  exact (delete_invalid_id finder memory.parseId (plain "nowhere" "old") _
           ltac:(compute_eq)).
Defined.

(** The record of the epoch is read. *)
Lemma read_decodes_value_witness :
  schema.value (data (snd (Read finder (plain theId "old")))) = "1970-01-01T00:00:00Z".
Proof.
  rewrite (read_decodes_value finder memory.parseId decodeVariableValue
             (plain theId "old") theResourceID (fst epochRecord) tt _ (timeOfMillis 0)
             ltac:(compute_eq) eq_refl eq_refl eq_refl ltac:(compute_eq)).
  compute_eq.
Defined.

(** A record whose value is a number, not a date. *)
Lemma read_decode_error_witness :
  fst (Read (stub.client (stub.found (Some theId) (Some false) (Some "1234"))
               epochRecord (stub.deleted 200 None))
         (plain theId "old")) = Failed (ExternalError "ValueDecodeError").
Proof.
  rewrite (read_decode_error
             (stub.client (stub.found (Some theId) (Some false) (Some "1234"))
                epochRecord (stub.deleted 200 None))
             memory.parseId decodeVariableValue
             (plain theId "old") theResourceID
             (fst (stub.found (Some theId) (Some false) (Some "1234"))) tt _
             (ExternalError "ValueDecodeError")
             ltac:(compute_eq) eq_refl eq_refl eq_refl ltac:(compute_eq)).
  reflexivity.
Defined.

(** A record without properties. *)
Lemma read_without_properties_witness :
  schema.value (data (snd (Read (stub.client stub.bare epochRecord (stub.deleted 200 None))
                             (plain theId "old")))) = "old".
Proof.
  rewrite (read_without_properties
             (stub.client stub.bare epochRecord (stub.deleted 200 None))
             memory.parseId decodeVariableValue (plain theId "old") theResourceID
             (fst stub.bare) tt ltac:(compute_eq) eq_refl eq_refl).
  reflexivity.
Defined.

(** A decoder that returns a string. *)
Lemma read_non_time_panics_witness :
  fst (resourceArmAutomationDatetimeVariableRead finder memory.parseId
         stub.decodeString (plain theId "old")) = Panicked.
Proof.
  exact (read_non_time_panics finder memory.parseId stub.decodeString
           (plain theId "old") theResourceID (fst epochRecord) tt _ (VString "text")
           ltac:(compute_eq) eq_refl eq_refl eq_refl eq_refl
           ltac:(intros t; discriminate)).
Defined.

(** The destroy check passes although the first variable is still found. *)
Lemma destroy_check_outcome_witness :
  fst (testCheckAzureRMAutomationIntVariableDestroy finder threeResources
         (mkEnv tt tt [])) = Returned tt.
Proof.
  rewrite (destroy_check_outcome finder threeResources (mkEnv tt tt [])
             "azurerm_automation_int_variable.a" (intVariable "a") _
             (fst epochRecord) None tt eq_refl eq_refl eq_refl).
  reflexivity.
Defined.

Lemma destroy_check_nothing_to_check_witness :
  testCheckAzureRMAutomationIntVariableDestroy (failing 500)
    [("azurerm_resource_group.test", resourceGroup)] (mkEnv tt tt [])
  = (Returned tt, mkEnv tt tt []).
Proof.
  exact (destroy_check_nothing_to_check (failing 500)
           [("azurerm_resource_group.test", resourceGroup)] (mkEnv tt tt []) eq_refl).
Defined.

(** The exists check on a variable the service does not have. *)
Lemma exists_check_outcome_witness :
  fst (testCheckAzureRMAutomationIntVariableExists (failing 404)
         "azurerm_automation_int_variable.test" oneResource (mkEnv tt tt []))
  = Failed (ErrorDoesNotExist "v1" "acct" "rg").
Proof.
  rewrite (exists_check_outcome (failing 404) "azurerm_automation_int_variable.test"
             oneResource (mkEnv tt tt []) (intVariable "v1") _
             (fst (stub.failure 404)) (Some (ExternalError "StatusCode")) tt
             ltac:(compute_eq) eq_refl eq_refl).
  compute_eq.
Defined.

Lemma exists_check_not_in_state_witness :
  testCheckAzureRMAutomationIntVariableExists finder
    "azurerm_automation_int_variable.other" oneResource (mkEnv tt tt [])
  = (Failed (ErrorNotInState "azurerm_automation_int_variable.other"),
     mkEnv tt tt []).
Proof.
  exact (exists_check_not_in_state finder "azurerm_automation_int_variable.other"
           oneResource (mkEnv tt tt []) ltac:(compute_eq)).
Defined.

(** The printed value of the sample encodes as the sample does. *)
Lemma printed_value_encodes_alike_witness :
  exists t',
    time.Parse time.RFC3339
      (time.Format (timeOfMillis (time.UnixNano sampleTime ÷ 1000000)) time.layoutMilliZ)
      = inr t' /\
    encodedValue t' = encodedValue sampleTime.
Proof. exact (printed_value_encodes_alike sampleTime ltac:(in_range)). Defined.

Lemma encoded_millis_truncate_witness :
  Z.abs (time.instant sampleTime - time.UnixNano sampleTime ÷ 1000000 * 1000000)
    < 1000000.
Proof. exact (proj1 (encoded_millis_truncate sampleTime ltac:(in_range))). Defined.

Lemma printed_whole_second_witness :
  String.length (time.Format (timeOfMillis 1672671845000) time.layoutMilliZ) = 20%nat.
Proof.
  apply printed_whole_second; [lia | reflexivity].
Defined.

(** The variable of the epoch is created and read. *)
Lemma create_update_then_read_witness :
  fst (CreateUpdate finder false (plain "" "1970-01-01T00:00:00Z")) = Returned tt /\
  schema.Id (data (snd (CreateUpdate finder false (plain "" "1970-01-01T00:00:00Z"))))
    = theId /\
  schema.value (data (snd (CreateUpdate finder false (plain "" "1970-01-01T00:00:00Z"))))
    = time.Format (timeOfMillis (time.UnixNano (time.mkTime 0 0 0) ÷ 1000000))
        time.layoutMilliZ.
Proof.
  exact (create_update_then_read finder memory.parseId false
           (plain "" "1970-01-01T00:00:00Z") (plain "" "1970-01-01T00:00:00Z")
           (time.mkTime 0 0 0) (fst epochRecord) tt (fst epochRecord) theId tt
           theResourceID (fst epochRecord) _ tt
           eq_refl ltac:(compute_eq) eq_refl eq_refl eq_refl ltac:(compute_eq)
           eq_refl eq_refl eq_refl ltac:(compute_eq)).
Defined.

(** The same line of the code on a timestamp half a millisecond after a
    whole millisecond, before the epoch: the division rounds toward the
    epoch, and what is read back is one millisecond later than the
    timestamp truncated to the millisecond. *)
Lemma datetime_round_trip_before_epoch :
  time.Parse time.RFC3339 "1969-12-31T23:59:58.0005Z"
    = inr (time.mkTime (-2) 500000 0) /\
  encodedValue (time.mkTime (-2) 500000 0) = dateToken (-1999) /\
  time.Format (timeOfMillis (-1999)) time.layoutMilliZ = "1969-12-31T23:59:58.001Z".
Proof. repeat split; compute_eq. Qed.

(** Two integer variables after a resource group: the first is fetched,
    the second never. *)
Lemma destroy_check_first_only_witness :
  testCheckAzureRMAutomationIntVariableDestroy finder threeResources (mkEnv tt tt [])
  = (Returned tt, mkEnv tt tt [CallGet "rg" "acct" "a"]).
Proof.
  change threeResources
    with ([("azurerm_resource_group.test", resourceGroup)]
          ++ ("azurerm_automation_int_variable.a", intVariable "a")
             :: [("azurerm_automation_int_variable.b", intVariable "b")])%list.
  rewrite (proj1 (destroy_check_first_only finder
                    [("azurerm_resource_group.test", resourceGroup)]
                    [("azurerm_automation_int_variable.b", intVariable "b")]
                    "azurerm_automation_int_variable.a" (intVariable "a")
                    (mkEnv tt tt [])
                    ltac:(repeat constructor) eq_refl)).
  compute_eq.
Defined.

End Examples.
